(** * Podcast episodes and media references

    A shallow embedding of [feedgen/item.py] (class [BaseEpisode]) and
    [feedgen/media.py] (class [Media]), followed by the properties of the
    two classes that the specification states.

    Conventions of the embedding:
    - Python's [None] is [option]'s [None]; a get-or-set accessor takes its
      argument as an [option] and returns the new object state together
      with what the call returns or raises.
    - Exceptions are values of [exn] carrying the message of the source.
    - Warnings are collected in the order in which they are issued.
    - Strings are byte strings; case conversion and whitespace are those of
      the ASCII range.
    - Code the two classes call but do not define (urllib's [urlparse],
      dateutil's parser, [formatRFC2822], lxml's [CDATA]) is a Section
      variable; the check lxml makes of every text it is handed is
      written out. *)

From Stdlib Require Import ZArith String Ascii DecimalString SpecFloat Lia.
From stdpp Require Import base option list gmap strings.

Local Open Scope string_scope.
Local Open Scope list_scope.

(** ** Exceptions and results *)

Inductive exn : Type :=
| ValueError (msg : string)
| TypeError (msg : string)
| KeyError (key : string)
| OverflowError (msg : string)
| RecursionError (msg : string).

Inductive result (A : Type) : Type :=
| Ok (a : A)
| Raise (e : exn).
Arguments Ok {A} a.
Arguments Raise {A} e.

#[global] Instance result_ret : MRet result := fun _ a => Ok a.
#[global] Instance result_fmap : FMap result := fun _ _ f r =>
  match r with
  | Ok a => Ok (f a)
  | Raise e => Raise e
  end.
#[global] Instance result_bind : MBind result := fun _ _ f r =>
  match r with
  | Ok a => f a
  | Raise e => Raise e
  end.

Definition is_value_error {A} (r : result A) : bool :=
  match r with
  | Raise (ValueError _) => true
  | _ => false
  end.

(** ** The string methods the source uses *)

Module PyStr.

Definition is_upper (c : ascii) : bool :=
  (65 <=? nat_of_ascii c)%nat && (nat_of_ascii c <=? 90)%nat.

Definition lower_char (c : ascii) : ascii :=
  if is_upper c then ascii_of_nat (nat_of_ascii c + 32) else c.

(** [s.lower()] *)
Fixpoint lower (s : string) : string :=
  match s with
  | EmptyString => EmptyString
  | String c s' => String (lower_char c) (lower s')
  end.

Definition mem (c : ascii) (chars : string) : bool :=
  existsb (Ascii.eqb c) (list_ascii_of_string chars).

(** [s.lstrip(chars)] *)
Fixpoint lstrip (chars s : string) : string :=
  match s with
  | EmptyString => EmptyString
  | String c s' => if mem c chars then lstrip chars s' else s
  end.

(** [s.rstrip(chars)] *)
Fixpoint rstrip (chars s : string) : string :=
  match s with
  | EmptyString => EmptyString
  | String c s' =>
      match rstrip chars s' with
      | EmptyString => if mem c chars then EmptyString else String c EmptyString
      | r => String c r
      end
  end.

(** The characters [str.isspace] accepts below 128: tab, the line and
    form feeds, the four separators 28..31 and the blank. *)
Definition whitespace : string :=
  string_of_list_ascii
    (List.map ascii_of_nat [9; 10; 11; 12; 13; 28; 29; 30; 31; 32]).

(** [s.strip()] *)
Definition strip (s : string) : string :=
  lstrip whitespace (rstrip whitespace s).

(** [s.replace(" ", "")] *)
Fixpoint remove_spaces (s : string) : string :=
  match s with
  | EmptyString => EmptyString
  | String c s' =>
      if Ascii.eqb c " " then remove_spaces s' else String c (remove_spaces s')
  end.

(** [s.split(sep)] for a separator of one character: never empty. *)
Fixpoint split (sep : ascii) (s : string) : list string :=
  match s with
  | EmptyString => [EmptyString]
  | String c s' =>
      if Ascii.eqb c sep then EmptyString :: split sep s'
      else match split sep s' with
           | [] => [String c EmptyString]
           | w :: ws => String c w :: ws
           end
  end.

(** [s.split(sep)[-1]] *)
Definition last_field (sep : ascii) (s : string) : string :=
  List.last (split sep s) EmptyString.

(** [s.endswith(suffix)] *)
Definition endswith (suffix s : string) : bool :=
  (String.length suffix <=? String.length s)%nat &&
  String.eqb
    (substring (String.length s - String.length suffix)
               (String.length suffix) s)
    suffix.

(** [s.endswith((suffix1, suffix2, ...))] *)
Definition endswith_any (suffixes : list string) (s : string) : bool :=
  existsb (fun suffix => endswith suffix s) suffixes.

(** [str(n)] for an int *)
Definition of_Z (n : Z) : string := NilZero.string_of_int (Z.to_int n).

(** Truth value of a string that may be [None]. *)
Definition truthy (s : option string) : bool :=
  match s with
  | None | Some EmptyString => false
  | Some _ => true
  end.

End PyStr.

(** ** Numbers out of strings: [int(s)], [float(s)], [round(x)] *)

Module PyNum.

Definition prec : Z := 53.
Definition emax : Z := 1024.

Definition is_digit (c : ascii) : bool :=
  (48 <=? nat_of_ascii c)%nat && (nat_of_ascii c <=? 57)%nat.

Definition digit_val (c : ascii) : Z := Z.of_nat (nat_of_ascii c - 48).

(** The underscore rule of numeric literals given as strings: an
    underscore stands only between two digits.  [prev] is the character
    before [s]; the result is [s] without its underscores. *)
Fixpoint drop_underscores (prev : ascii) (s : string) : option string :=
  match s with
  | EmptyString => if Ascii.eqb prev "_" then None else Some EmptyString
  | String c s' =>
      if Ascii.eqb c "_" then
        if is_digit prev then drop_underscores c s' else None
      else if Ascii.eqb prev "_" && negb (is_digit c) then None
      else String c <$> drop_underscores c s'
  end.

Fixpoint span_digits (s : string) : string * string :=
  match s with
  | EmptyString => (EmptyString, EmptyString)
  | String c s' =>
      if is_digit c
      then let '(d, r) := span_digits s' in (String c d, r)
      else (EmptyString, s)
  end.

Definition Z_of_digits (ds : string) : Z :=
  fold_left (fun acc c => 10 * acc + digit_val c)%Z
            (list_ascii_of_string ds) 0%Z.

Definition take_sign (s : string) : bool * string :=
  match s with
  | String "-" s' => (true, s')
  | String "+" s' => (false, s')
  | _ => (false, s)
  end.

(** [int(s)] in base ten; [None] stands for the ValueError. *)
Definition int_of_string (s : string) : option Z :=
  s1 ← drop_underscores "000" (PyStr.strip s);
  let '(neg, s2) := take_sign s1 in
  let '(ds, rest) := span_digits s2 in
  match ds, rest with
  | String _ _, EmptyString =>
      Some (if neg then - Z_of_digits ds else Z_of_digits ds)%Z
  | _, _ => None
  end.

(** A decimal literal [digits [. digits] [e [sign] digits]] with at least
    one digit in front of the exponent: mantissa and power of ten. *)
Definition parse_decimal (s : string) : option (Z * Z) :=
  let '(ip, r1) := span_digits s in
  let '(fp, r2) :=
    match r1 with
    | String "." r => span_digits r
    | _ => (EmptyString, r1)
    end in
  let m := Z_of_digits (ip +:+ fp) in
  let k := Z.of_nat (String.length fp) in
  if (String.length ip + String.length fp =? 0)%nat then None
  else match r2 with
       | EmptyString => Some (m, - k)%Z
       | String c r3 =>
           if Ascii.eqb c "e" || Ascii.eqb c "E" then
             let '(eneg, r4) := take_sign r3 in
             let '(ed, r5) := span_digits r4 in
             match ed, r5 with
             | String _ _, EmptyString =>
                 Some (m, (if eneg then - Z_of_digits ed else Z_of_digits ed) - k)%Z
             | _, _ => None
             end
           else None
       end.

(** The binary64 number nearest to [m * 10^e] (ties to even). *)
Definition of_decimal (neg : bool) (m e : Z) : spec_float :=
  match m with
  | Zpos p =>
      if (0 <=? e)%Z
      then binary_round prec emax neg (p * Z.to_pos (10 ^ e)) 0
      else SFdiv prec emax (S754_finite neg p 0)
                 (S754_finite false (Z.to_pos (10 ^ (- e))) 0)
  | _ => S754_zero neg
  end.

(** [float(s)]; [None] stands for the ValueError
    "could not convert string to float". *)
Definition float_of_string (s : string) : option spec_float :=
  s1 ← drop_underscores "000" (PyStr.strip s);
  let '(neg, s2) := take_sign s1 in
  let w := PyStr.lower s2 in
  if String.eqb w "inf" || String.eqb w "infinity" then Some (S754_infinity neg)
  else if String.eqb w "nan" then Some S754_nan
  else '(m, e) ← parse_decimal s2; Some (of_decimal neg m e).

(** [float(n)] for an int *)
Definition float_of_Z (n : Z) : spec_float := binary_normalize prec emax n 0 false.

Definition mul (x y : spec_float) : spec_float := SFmul prec emax x y.

(** [round(x)] with one argument: the nearest integer, ties to even. *)
Definition round (x : spec_float) : result Z :=
  match x with
  | S754_zero _ => Ok 0%Z
  | S754_nan => Raise (ValueError "cannot convert float NaN to integer")
  | S754_infinity _ =>
      Raise (OverflowError "cannot convert float infinity to integer")
  | S754_finite s m e =>
      let a :=
        if (0 <=? e)%Z then (Zpos m * 2 ^ e)%Z
        else
          let d := (2 ^ (- e))%Z in
          let q := (Zpos m / d)%Z in
          match (2 * (Zpos m mod d) ?= d)%Z with
          | Lt => q
          | Gt => (q + 1)%Z
          | Eq => if Z.even q then q else (q + 1)%Z
          end in
      Ok (if s then - a else a)%Z
  end.

End PyNum.

(** ** Values of several Python types passed to one parameter *)

Inductive pyval : Type :=
| PyStr (s : string)
| PyInt (n : Z)
| PyBool (b : bool).

(** [str(v)] *)
Definition py_str (v : pyval) : string :=
  match v with
  | PyStr s => s
  | PyInt n => PyStr.of_Z n
  | PyBool true => "True"
  | PyBool false => "False"
  end.

(** [int(v)] *)
Definition py_int (v : pyval) : result Z :=
  match v with
  | PyStr s =>
      match PyNum.int_of_string s with
      | Some n => Ok n
      | None =>
          Raise (ValueError ("invalid literal for int() with base 10: '" +:+ s +:+ "'"))
      end
  | PyInt n => Ok n
  | PyBool b => Ok (if b then 1 else 0)%Z
  end.

(** A dict with text keys and text values. *)
Abbreviation dict := (gmap string string).

(** One dict, or a list of dicts, as [author] and [category] take them. *)
Inductive records : Type :=
| Single (d : dict)
| Several (l : list dict).

(** Modelled from the spec: [ensure_format] of [feedgen.util], a helper
    whose source is not available here.  The specification says that [authors]
    accept a single record or a sequence of records and that each record
    is validated against a required-field set and an optional-field set;
    the checked records come back as a sequence.  [allowed] is the union
    of the two sets, as [author] passes it. *)
Definition ensure_format (val : records) (allowed required : gset string)
  : result (list dict) :=
  let l := match val with Single d => [d] | Several l => l end in
  if forallb (fun d : dict => bool_decide (dom d ⊆ allowed)) l then
    if forallb (fun d : dict => bool_decide (required ⊆ dom d)) l then Ok l
    else Raise (ValueError "Data lacks keys")
  else Raise (ValueError "Data contains invalid keys").

(** ** XML elements as [lxml.etree] builds them *)

Inductive text : Type :=
| Plain (s : string)
| CDATA (s : string).

#[warnings="-register-all"]
Inductive element : Type :=
| Element (tag : string) (attrib : list (string * string))
          (txt : option text) (children : list element).

Definition tag (x : element) : string :=
  let '(Element t _ _ _) := x in t.
Definition attrib (x : element) : list (string * string) :=
  let '(Element _ a _ _) := x in a.
Definition txt (x : element) : option text :=
  let '(Element _ _ t _) := x in t.
Definition children (x : element) : list element :=
  let '(Element _ _ _ c) := x in c.

(** [etree.SubElement(entry, tag)] followed by [.text = s] *)
Definition leaf (tag s : string) : element := Element tag [] (Some (Plain s)) [].

(** *** What lxml takes as a text

    A text handed to lxml, as the text of an element or as the value of
    an attribute, is encoded to UTF-8 and refused with a ValueError when
    it holds a NUL byte or a control character other than tab, line feed
    and carriage return.  Texts are ASCII here, and bytes above 127
    pass. *)
Definition xml_char (c : ascii) : bool :=
  let n := nat_of_ascii c in
  (n =? 9)%nat || (n =? 10)%nat || (n =? 13)%nat || (32 <=? n)%nat.

Definition xml_compatible (s : string) : bool :=
  forallb xml_char (list_ascii_of_string s).

Definition xml_error : exn :=
  ValueError ("All strings must be XML compatible: Unicode or ASCII, "
              +:+ "no NULL bytes or control characters").

(** lxml's check of a text, [_utf8] in its sources *)
Definition _utf8 (s : string) : result string :=
  if xml_compatible s then Ok s else Raise xml_error.

(** [type(v).__name__] *)
Definition type_name (v : option pyval) : string :=
  match v with
  | None => "NoneType"
  | Some (PyStr _) => "str"
  | Some (PyInt _) => "int"
  | Some (PyBool _) => "bool"
  end.

(** A value assigned to [element.attrib[key]]: lxml takes a text, which
    it checks, and raises a TypeError for any other value, [None]
    included. *)
Definition attrib_value (v : option pyval) : result string :=
  match v with
  | Some (PyStr s) => _utf8 s
  | _ =>
      Raise (TypeError ("Argument must be bytes or unicode, got '"
                        +:+ type_name v +:+ "'"))
  end.

(** ** [feedgen/item.py]: class [BaseEpisode] *)

Module Episode.

Record datetime : Type := {
  year : Z; month : Z; day : Z;
  hour : Z; minute : Z; second : Z;
  (** offset from UTC in minutes; [None] for a naive datetime *)
  tzinfo : option Z
}.

(** What [published] can be handed. *)
Inductive published_arg : Type :=
| PubStr (s : string)
| PubDatetime (d : datetime)
| PubOther (v : pyval).

(** [{'content': ..., 'type': ...}], the key ['type'] being optional *)
Record content_dict : Type := {
  content_content : string;
  content_type : option string
}.

(** [{'url': ..., 'length': ..., 'type': ...}]: the three keys are always
    there; the last two values are what the caller passed, be it [None],
    a text or, for a length in bytes, an int *)
Record enclosure_dict : Type := {
  enclosure_url : string;
  enclosure_length : option pyval;
  enclosure_type : option pyval
}.

(** [{'value': ..., 'domain': ...}], the key ['domain'] being optional *)
Record category_dict : Type := {
  category_value : string;
  category_domain : option string
}.

Record episode : Type := Build_episode {
  __rss_author : option (list string);
  __rss_category : option (list category_dict);
  __rss_comments : option string;
  __rss_description : option string;
  __rss_content : option content_dict;
  __rss_enclosure : option enclosure_dict;
  __rss_guid : option string;
  __rss_link : option string;
  __rss_pubDate : option datetime;
  __rss_source : option string;
  __rss_title : option string;
  __itunes_author : option string;
  __itunes_block : option bool;
  __itunes_image : option string;
  __itunes_duration : option string;
  __itunes_explicit : option string;
  __itunes_is_closed_captioned : option bool;
  __itunes_order : option Z;
  __itunes_subtitle : option string;
  __itunes_summary : option string
}.

(** Assignment to one attribute. *)
Definition set_rss_author (v : option (list string)) (self : episode) : episode :=
  let '(Build_episode _ a2 a3 a4 a5 a6 a7 a8 a9 a10 a11 a12 a13 a14 a15 a16 a17 a18 a19 a20) := self in
  Build_episode v a2 a3 a4 a5 a6 a7 a8 a9 a10 a11 a12 a13 a14 a15 a16 a17 a18 a19 a20.

Definition set_rss_category (v : option (list category_dict)) (self : episode) : episode :=
  let '(Build_episode a1 _ a3 a4 a5 a6 a7 a8 a9 a10 a11 a12 a13 a14 a15 a16 a17 a18 a19 a20) := self in
  Build_episode a1 v a3 a4 a5 a6 a7 a8 a9 a10 a11 a12 a13 a14 a15 a16 a17 a18 a19 a20.

Definition set_rss_comments (v : option string) (self : episode) : episode :=
  let '(Build_episode a1 a2 _ a4 a5 a6 a7 a8 a9 a10 a11 a12 a13 a14 a15 a16 a17 a18 a19 a20) := self in
  Build_episode a1 a2 v a4 a5 a6 a7 a8 a9 a10 a11 a12 a13 a14 a15 a16 a17 a18 a19 a20.

Definition set_rss_description (v : option string) (self : episode) : episode :=
  let '(Build_episode a1 a2 a3 _ a5 a6 a7 a8 a9 a10 a11 a12 a13 a14 a15 a16 a17 a18 a19 a20) := self in
  Build_episode a1 a2 a3 v a5 a6 a7 a8 a9 a10 a11 a12 a13 a14 a15 a16 a17 a18 a19 a20.

Definition set_rss_content (v : option content_dict) (self : episode) : episode :=
  let '(Build_episode a1 a2 a3 a4 _ a6 a7 a8 a9 a10 a11 a12 a13 a14 a15 a16 a17 a18 a19 a20) := self in
  Build_episode a1 a2 a3 a4 v a6 a7 a8 a9 a10 a11 a12 a13 a14 a15 a16 a17 a18 a19 a20.

Definition set_rss_enclosure (v : option enclosure_dict) (self : episode) : episode :=
  let '(Build_episode a1 a2 a3 a4 a5 _ a7 a8 a9 a10 a11 a12 a13 a14 a15 a16 a17 a18 a19 a20) := self in
  Build_episode a1 a2 a3 a4 a5 v a7 a8 a9 a10 a11 a12 a13 a14 a15 a16 a17 a18 a19 a20.

Definition set_rss_guid (v : option string) (self : episode) : episode :=
  let '(Build_episode a1 a2 a3 a4 a5 a6 _ a8 a9 a10 a11 a12 a13 a14 a15 a16 a17 a18 a19 a20) := self in
  Build_episode a1 a2 a3 a4 a5 a6 v a8 a9 a10 a11 a12 a13 a14 a15 a16 a17 a18 a19 a20.

Definition set_rss_link (v : option string) (self : episode) : episode :=
  let '(Build_episode a1 a2 a3 a4 a5 a6 a7 _ a9 a10 a11 a12 a13 a14 a15 a16 a17 a18 a19 a20) := self in
  Build_episode a1 a2 a3 a4 a5 a6 a7 v a9 a10 a11 a12 a13 a14 a15 a16 a17 a18 a19 a20.

Definition set_rss_pubDate (v : option datetime) (self : episode) : episode :=
  let '(Build_episode a1 a2 a3 a4 a5 a6 a7 a8 _ a10 a11 a12 a13 a14 a15 a16 a17 a18 a19 a20) := self in
  Build_episode a1 a2 a3 a4 a5 a6 a7 a8 v a10 a11 a12 a13 a14 a15 a16 a17 a18 a19 a20.

Definition set_rss_title (v : option string) (self : episode) : episode :=
  let '(Build_episode a1 a2 a3 a4 a5 a6 a7 a8 a9 a10 _ a12 a13 a14 a15 a16 a17 a18 a19 a20) := self in
  Build_episode a1 a2 a3 a4 a5 a6 a7 a8 a9 a10 v a12 a13 a14 a15 a16 a17 a18 a19 a20.

Definition set_itunes_author (v : option string) (self : episode) : episode :=
  let '(Build_episode a1 a2 a3 a4 a5 a6 a7 a8 a9 a10 a11 _ a13 a14 a15 a16 a17 a18 a19 a20) := self in
  Build_episode a1 a2 a3 a4 a5 a6 a7 a8 a9 a10 a11 v a13 a14 a15 a16 a17 a18 a19 a20.

Definition set_itunes_block (v : option bool) (self : episode) : episode :=
  let '(Build_episode a1 a2 a3 a4 a5 a6 a7 a8 a9 a10 a11 a12 _ a14 a15 a16 a17 a18 a19 a20) := self in
  Build_episode a1 a2 a3 a4 a5 a6 a7 a8 a9 a10 a11 a12 v a14 a15 a16 a17 a18 a19 a20.

Definition set_itunes_image (v : option string) (self : episode) : episode :=
  let '(Build_episode a1 a2 a3 a4 a5 a6 a7 a8 a9 a10 a11 a12 a13 _ a15 a16 a17 a18 a19 a20) := self in
  Build_episode a1 a2 a3 a4 a5 a6 a7 a8 a9 a10 a11 a12 a13 v a15 a16 a17 a18 a19 a20.

Definition set_itunes_duration (v : option string) (self : episode) : episode :=
  let '(Build_episode a1 a2 a3 a4 a5 a6 a7 a8 a9 a10 a11 a12 a13 a14 _ a16 a17 a18 a19 a20) := self in
  Build_episode a1 a2 a3 a4 a5 a6 a7 a8 a9 a10 a11 a12 a13 a14 v a16 a17 a18 a19 a20.

Definition set_itunes_explicit (v : option string) (self : episode) : episode :=
  let '(Build_episode a1 a2 a3 a4 a5 a6 a7 a8 a9 a10 a11 a12 a13 a14 a15 _ a17 a18 a19 a20) := self in
  Build_episode a1 a2 a3 a4 a5 a6 a7 a8 a9 a10 a11 a12 a13 a14 a15 v a17 a18 a19 a20.

Definition set_itunes_is_closed_captioned (v : option bool) (self : episode) : episode :=
  let '(Build_episode a1 a2 a3 a4 a5 a6 a7 a8 a9 a10 a11 a12 a13 a14 a15 a16 _ a18 a19 a20) := self in
  Build_episode a1 a2 a3 a4 a5 a6 a7 a8 a9 a10 a11 a12 a13 a14 a15 a16 v a18 a19 a20.

Definition set_itunes_order (v : option Z) (self : episode) : episode :=
  let '(Build_episode a1 a2 a3 a4 a5 a6 a7 a8 a9 a10 a11 a12 a13 a14 a15 a16 a17 _ a19 a20) := self in
  Build_episode a1 a2 a3 a4 a5 a6 a7 a8 a9 a10 a11 a12 a13 a14 a15 a16 a17 v a19 a20.

Definition set_itunes_subtitle (v : option string) (self : episode) : episode :=
  let '(Build_episode a1 a2 a3 a4 a5 a6 a7 a8 a9 a10 a11 a12 a13 a14 a15 a16 a17 a18 _ a20) := self in
  Build_episode a1 a2 a3 a4 a5 a6 a7 a8 a9 a10 a11 a12 a13 a14 a15 a16 a17 a18 v a20.

Definition set_itunes_summary (v : option string) (self : episode) : episode :=
  let '(Build_episode a1 a2 a3 a4 a5 a6 a7 a8 a9 a10 a11 a12 a13 a14 a15 a16 a17 a18 a19 _) := self in
  Build_episode a1 a2 a3 a4 a5 a6 a7 a8 a9 a10 a11 a12 a13 a14 a15 a16 a17 a18 a19 v.

(** [BaseEpisode.__init__] *)
Definition __init__ : episode :=
  Build_episode None None None None None None None None None None
                None None None None None None None None None None.

Definition CONTENT_NS : string := "http://purl.org/rss/1.0/modules/content/".
Definition ITUNES_NS : string := "http://www.itunes.com/dtds/podcast-1.0.dtd".

(** ['{%s}name' % ns] *)
Definition qname (ns name : string) : string := "{" +:+ ns +:+ "}" +:+ name.

Definition yes_no (b : bool) : string := if b then "yes" else "no".

(** *** The accessors without validation *)

Definition title (self : episode) (title : option string)
  : episode * option string :=
  let self := match title with
              | Some _ => set_rss_title title self
              | None => self
              end in
  (self, __rss_title self).

Definition guid (self : episode) (guid : option string)
  : episode * option string :=
  let self := match guid with
              | Some _ => set_rss_guid guid self
              | None => self
              end in
  (self, __rss_guid self).

Definition content (self : episode) (content type : option string)
  : episode * option content_dict :=
  let self :=
    match content with
    | Some c =>
        set_rss_content
          (Some {| content_content := c; content_type := type |}) self
    | None => self
    end in
  (self, __rss_content self).

Definition link (self : episode) (href : option string)
  : episode * option string :=
  let self := match href with
              | Some _ => set_rss_link href self
              | None => self
              end in
  (self, __rss_link self).

Definition description (self : episode) (description : option string)
  : episode * option string :=
  let self := match description with
              | Some _ => set_rss_description description self
              | None => self
              end in
  (self, __rss_description self).

Definition comments (self : episode) (comments : option string)
  : episode * option string :=
  let self := match comments with
              | Some _ => set_rss_comments comments self
              | None => self
              end in
  (self, __rss_comments self).

Definition enclosure (self : episode) (url : option string)
    (length type : option pyval) : episode * option enclosure_dict :=
  let self :=
    match url with
    | Some u =>
        set_rss_enclosure
          (Some {| enclosure_url := u; enclosure_length := length;
                   enclosure_type := type |}) self
    | None => self
    end in
  (self, __rss_enclosure self).

Definition itunes_author (self : episode) (itunes_author : option string)
  : episode * option string :=
  let self := match itunes_author with
              | Some _ => set_itunes_author itunes_author self
              | None => self
              end in
  (self, __itunes_author self).

Definition itunes_block (self : episode) (itunes_block : option bool)
  : episode * option bool :=
  let self := match itunes_block with
              | Some _ => set_itunes_block itunes_block self
              | None => self
              end in
  (self, __itunes_block self).

(** [v in ('yes', True)]: equality with the text or with the boolean,
    which the int 1 also equals *)
Definition in_yes_True (v : pyval) : bool :=
  match v with
  | PyStr s => String.eqb s "yes"
  | PyInt n => (n =? 1)%Z
  | PyBool b => b
  end.

Definition itunes_is_closed_captioned (self : episode)
    (itunes_is_closed_captioned : option pyval) : episode * option bool :=
  let self :=
    match itunes_is_closed_captioned with
    | Some v => set_itunes_is_closed_captioned (Some (in_yes_True v)) self
    | None => self
    end in
  (self, __itunes_is_closed_captioned self).

Definition itunes_subtitle (self : episode) (itunes_subtitle : option string)
  : episode * option string :=
  let self := match itunes_subtitle with
              | Some _ => set_itunes_subtitle itunes_subtitle self
              | None => self
              end in
  (self, __itunes_subtitle self).

Definition itunes_summary (self : episode) (itunes_summary : option string)
  : episode * option string :=
  let self := match itunes_summary with
              | Some _ => set_itunes_summary itunes_summary self
              | None => self
              end in
  (self, __itunes_summary self).

(** *** [author] and [category] *)

(** ['%s (%s)' % (a['email'], a['name'])] *)
Definition format_author (a : dict) : result string :=
  match a !! "email" with
  | None => Raise (KeyError "email")
  | Some email =>
      match a !! "name" with
      | None => Raise (KeyError "name")
      | Some name => Ok (email +:+ " (" +:+ name +:+ ")")
      end
  end.

(** The list comprehension over the checked records: the first failing
    lookup ends it. *)
Fixpoint format_authors (l : list dict) : result (list string) :=
  match l with
  | [] => Ok []
  | a :: l' =>
      s ← format_author a;
      rest ← format_authors l';
      Ok (s :: rest)
  end.

Definition author (self : episode) (author : option records)
    (replace : bool) (kwargs : dict)
  : episode * result (option (list string)) :=
  let author :=
    match author with
    | None => if bool_decide (kwargs = ∅) then None else Some (Single kwargs)
    | Some _ => author
    end in
  match author with
  | None => (self, Ok (__rss_author self))
  | Some a =>
      let self :=
        if replace || bool_decide (__rss_author self = None)
        then set_rss_author (Some []) self else self in
      match ensure_format a {[ "name"; "email" ]} {[ "email" ]} with
      | Raise e => (self, Raise e)
      | Ok authors =>
          match format_authors authors with
          | Raise e => (self, Raise e)
          | Ok new =>
              let self :=
                set_rss_author
                  (Some (default [] (__rss_author self) ++ new)) self in
              (self, Ok (__rss_author self))
          end
      end
  end.

(** One turn of the loop over the categories. *)
Definition rss_cat (cat : dict) : result category_dict :=
  let value :=
    if PyStr.truthy (cat !! "label") then cat !! "label" else cat !! "term" in
  match value with
  | None => Raise (KeyError "term")
  | Some v =>
      Ok {| category_value := v;
            category_domain :=
              if PyStr.truthy (cat !! "scheme") then cat !! "scheme" else None |}
  end.

(** The loop appends to the stored list as it goes, so what was appended
    before a failing record stays. *)
Fixpoint category_loop (stored : list category_dict) (l : list dict)
  : list category_dict * result unit :=
  match l with
  | [] => (stored, Ok tt)
  | cat :: l' =>
      match rss_cat cat with
      | Raise e => (stored, Raise e)
      | Ok c => category_loop (stored ++ [c]) l'
      end
  end.

Definition category (self : episode) (category : option records)
    (replace : bool) (kwargs : dict)
  : episode * result (option (list category_dict)) :=
  let category :=
    match category with
    | None => if bool_decide (kwargs = ∅) then None else Some (Single kwargs)
    | Some _ => category
    end in
  match category with
  | None => (self, Ok (__rss_category self))
  | Some c =>
      let self :=
        if replace || bool_decide (__rss_category self = None)
        then set_rss_category (Some []) self else self in
      let l := match c with Single d => [d] | Several l => l end in
      let '(stored, r) := category_loop (default [] (__rss_category self)) l in
      let self := set_rss_category (Some stored) self in
      match r with
      | Raise e => (self, Raise e)
      | Ok _ => (self, Ok (__rss_category self))
      end
  end.

(** *** The accessors with validation *)

Definition dquote : string := String (ascii_of_nat 34) EmptyString.

Definition itunes_image (self : episode) (itunes_image : option string)
  : episode * result (option string) :=
  match itunes_image with
  | None => (self, Ok (__itunes_image self))
  | Some image =>
      let lowercase_itunes_image := PyStr.lower image in
      if negb (PyStr.endswith_any [".jpg"; ".jpeg"; ".png"]
                                  lowercase_itunes_image)
      then (self,
            Raise (ValueError ("Image filename must end with png or jpg, not ."
                               +:+ PyStr.last_field "." image)))
      else
        let self := set_itunes_image itunes_image self in
        (self, Ok (__itunes_image self))
  end.

(** The test in front of the ValueError of [itunes_duration]. *)
Definition bad_duration (d : string) : bool :=
  (3 <? List.length (PyStr.split ":" d))%nat
  || negb (String.eqb (PyStr.lstrip "0123456789:" d) "").

(** What [itunes_duration] hands back.  Its last line is
    [return self.itunes_duration]: the method of that name bound to
    [self], not the attribute [__itunes_duration]. *)
Inductive duration_return : Type :=
| Attribute (v : option string)
| BoundMethod (self : episode) (name : string).

Definition itunes_duration (self : episode) (itunes_duration : option pyval)
  : episode * duration_return :=
  let self :=
    match itunes_duration with
    | Some v =>
        let d := py_str v in
        (* the exception is built and dropped: the line has no [raise] *)
        let _ :=
          if bad_duration d
          then Some (ValueError ("Invalid duration format " +:+ dquote
                                 +:+ d +:+ dquote))
          else None in
        set_itunes_duration (Some d) self
    | None => self
    end in
  (self, BoundMethod self "itunes_duration").

Definition itunes_explicit (self : episode) (itunes_explicit : option string)
  : episode * result (option string) :=
  match itunes_explicit with
  | None => (self, Ok (__itunes_explicit self))
  | Some v =>
      if negb (bool_decide (v ∈ [""; "yes"; "no"; "clean"]))
      then (self,
            Raise (ValueError ("Invalid value " +:+ dquote +:+ v +:+ dquote
                               +:+ " for explicit tag")))
      else
        let self := set_itunes_explicit itunes_explicit self in
        (self, Ok (__itunes_explicit self))
  end.

Definition itunes_order (self : episode) (itunes_order : option pyval)
  : episode * result (option Z) :=
  match itunes_order with
  | None => (self, Ok (__itunes_order self))
  | Some v =>
      match py_int v with
      | Raise e => (self, Raise e)
      | Ok n =>
          let self := set_itunes_order (Some n) self in
          (self, Ok (__itunes_order self))
      end
  end.

Section External.

(** [dateutil.parser.parse]: a datetime, or the parser's exception *)
Variable dateutil_parse : string -> result datetime.

(** [feedgen.util.formatRFC2822] *)
Variable formatRFC2822 : datetime -> string.

(** [etree.CDATA]: whether lxml takes a text, once its characters are
    checked, as the content of a CDATA section.  Releases of lxml differ
    on the texts they refuse here. *)
Variable cdata_allowed : string -> bool.

Definition published (self : episode) (published : option published_arg)
  : episode * result (option datetime) :=
  match published with
  | None => (self, Ok (__rss_pubDate self))
  | Some p =>
      let parsed :=
        match p with
        | PubStr s =>
            match dateutil_parse s with
            | Ok d => Ok (PubDatetime d)
            | Raise e => Raise e
            end
        | _ => Ok p
        end in
      match parsed with
      | Raise e => (self, Raise e)
      | Ok (PubDatetime d) =>
          match tzinfo d with
          | None =>
              (self, Raise (ValueError "Datetime object has no timezone info"))
          | Some _ =>
              let self := set_rss_pubDate (Some d) self in
              (self, Ok (__rss_pubDate self))
          end
      | Ok _ => (self, Raise (ValueError "Invalid datetime format"))
      end
  end.

Definition pubdate (self : episode) (pubDate : option published_arg)
  : episode * result (option datetime) :=
  published self pubDate.

(** *** Sequences of accessor calls

    One constructor per public accessor, with its arguments.  A call that
    raises leaves the episode in the state it reached, and the caller may
    go on with it. *)

Inductive call : Type :=
| Title (title : option string)
| Guid (guid : option string)
| Author (author : option records) (replace : bool) (kwargs : dict)
| Content (content type : option string)
| Link (href : option string)
| Description (description : option string)
| Category (category : option records) (replace : bool) (kwargs : dict)
| Published (published : option published_arg)
| Pubdate (pubDate : option published_arg)
| Comments (comments : option string)
| Enclosure (url : option string) (length type : option pyval)
| ItunesAuthor (itunes_author : option string)
| ItunesBlock (itunes_block : option bool)
| ItunesImage (itunes_image : option string)
| ItunesDuration (itunes_duration : option pyval)
| ItunesExplicit (itunes_explicit : option string)
| ItunesIsClosedCaptioned (itunes_is_closed_captioned : option pyval)
| ItunesOrder (itunes_order : option pyval)
| ItunesSubtitle (itunes_subtitle : option string)
| ItunesSummary (itunes_summary : option string).

Definition step (self : episode) (c : call) : episode :=
  match c with
  | Title x => fst (title self x)
  | Guid x => fst (guid self x)
  | Author a r k => fst (author self a r k)
  | Content c t => fst (content self c t)
  | Link x => fst (link self x)
  | Description x => fst (description self x)
  | Category a r k => fst (category self a r k)
  | Published x => fst (published self x)
  | Pubdate x => fst (pubdate self x)
  | Comments x => fst (comments self x)
  | Enclosure u l t => fst (enclosure self u l t)
  | ItunesAuthor x => fst (itunes_author self x)
  | ItunesBlock x => fst (itunes_block self x)
  | ItunesImage x => fst (itunes_image self x)
  | ItunesDuration x => fst (itunes_duration self x)
  | ItunesExplicit x => fst (itunes_explicit self x)
  | ItunesIsClosedCaptioned x => fst (itunes_is_closed_captioned self x)
  | ItunesOrder x => fst (itunes_order self x)
  | ItunesSubtitle x => fst (itunes_subtitle self x)
  | ItunesSummary x => fst (itunes_summary self x)
  end.

(** The episode after the calls, made in order on a new episode. *)
Definition run (calls : list call) : episode := fold_left step calls __init__.

(** *** [rss_entry], block by block in the order of the source *)

(** [if v: ...] for a text attribute [v]: the block runs when [v] is
    neither [None] nor empty. *)
Definition if_true (v : option string) (f : string -> element)
  : list element :=
  match v with
  | Some s => if PyStr.truthy v then [f s] else []
  | None => []
  end.

Definition title_part (self : episode) : list element :=
  if_true (__rss_title self) (leaf "title").

Definition link_part (self : episode) : list element :=
  if_true (__rss_link self) (leaf "link").

Definition encoded (c : content_dict) : element :=
  Element (qname CONTENT_NS "encoded") []
    (Some (if String.eqb (default "" (content_type c)) "CDATA"
           then CDATA (content_content c)
           else Plain (content_content c)))
    [].

Definition description_part (self : episode) : list element :=
  match __rss_description self, __rss_content self with
  | Some d, Some c =>
      if PyStr.truthy (Some d) then [leaf "description" d; encoded c]
      else [leaf "description" (content_content c)]
  | Some d, None =>
      if PyStr.truthy (Some d) then [leaf "description" d] else []
  | None, Some c => [leaf "description" (content_content c)]
  | None, None => []
  end.

Definition author_part (self : episode) : list element :=
  List.map (leaf "author") (default [] (__rss_author self)).

Definition guid_part (self : episode) : list element :=
  if_true (__rss_guid self)
    (fun g => Element "guid" [("isPermaLink", "false")] (Some (Plain g)) []).

Definition category_element (cat : category_dict) : element :=
  Element "category"
    (match category_domain cat with
     | Some d => if PyStr.truthy (Some d) then [("domain", d)] else []
     | None => []
     end)
    (Some (Plain (category_value cat))) [].

Definition category_part (self : episode) : list element :=
  List.map category_element (default [] (__rss_category self)).

Definition comments_part (self : episode) : list element :=
  if_true (__rss_comments self) (leaf "comments").

Definition enclosure_part (self : episode) : result (list element) :=
  match __rss_enclosure self with
  | Some enc =>
      url ← _utf8 (enclosure_url enc);
      length ← attrib_value (enclosure_length enc);
      type ← attrib_value (enclosure_type enc);
      Ok [Element "enclosure"
            [("url", url); ("length", length); ("type", type)]
            None []]
  | None => Ok []
  end.

Definition pubDate_part (self : episode) : list element :=
  match __rss_pubDate self with
  | Some d => [leaf "pubDate" (formatRFC2822 d)]
  | None => []
  end.

Definition itunes_part (self : episode) : list element :=
  if_true (__itunes_author self) (leaf (qname ITUNES_NS "author"))
  ++ (match __itunes_block self with
      | Some b => [leaf (qname ITUNES_NS "block") (yes_no b)]
      | None => []
      end)
  ++ if_true (__itunes_image self)
       (fun i => Element (qname ITUNES_NS "image") [("href", i)] None [])
  ++ if_true (__itunes_duration self) (leaf (qname ITUNES_NS "duration"))
  ++ (match __itunes_explicit self with
      | Some x =>
          if bool_decide (x ∈ ["yes"; "no"; "clean"])
          then [leaf (qname ITUNES_NS "explicit") x] else []
      | None => []
      end)
  ++ (match __itunes_is_closed_captioned self with
      | Some b => [leaf (qname ITUNES_NS "isClosedCaptioned") (yes_no b)]
      | None => []
      end)
  ++ (match __itunes_order self with
      | Some n =>
          if (0 <=? n)%Z
          then [leaf (qname ITUNES_NS "order") (PyStr.of_Z n)] else []
      | None => []
      end)
  ++ if_true (__itunes_subtitle self) (leaf (qname ITUNES_NS "subtitle"))
  ++ if_true (__itunes_summary self) (leaf (qname ITUNES_NS "summary")).

(** The test of the first [if]: none of the three is true.  A stored
    content is a dict with a key, hence true. *)
Definition required_missing (self : episode) : bool :=
  negb (PyStr.truthy (__rss_title self)
        || PyStr.truthy (__rss_description self)
        || bool_decide (is_Some (__rss_content self))).

(** *** What lxml checks while the elements are built

    lxml checks every text and every attribute value at the assignment
    that hands it over, so the first value it refuses, in the order of
    the assignments, ends [rss_entry] with lxml's exception.  Within one
    element the source assigns the text before the attributes. *)
Definition text_checked (t : text) : result unit :=
  match t with
  | Plain s => _utf8 s ;; Ok tt
  | CDATA s =>
      _utf8 s ;;
      if cdata_allowed s then Ok tt
      else Raise (ValueError "']]>' not allowed inside CDATA")
  end.

Fixpoint attribs_checked (a : list (string * string)) : result unit :=
  match a with
  | [] => Ok tt
  | (_, v) :: a' => _utf8 v ;; attribs_checked a'
  end.

Definition element_checked (x : element) : result unit :=
  from_option text_checked (Ok tt) (txt x) ;; attribs_checked (attrib x).

Fixpoint elements_checked (l : list element) : result unit :=
  match l with
  | [] => Ok tt
  | x :: l' => element_checked x ;; elements_checked l'
  end.

(** The blocks before the enclosure, the enclosure, whose attributes can
    be of any type, then the blocks after it.  The parameter [extensions]
    of the source is never read. *)
Definition rss_entry (self : episode) : result element :=
  if required_missing self
  then Raise (ValueError "Required fields not set")
  else
    elements_checked
      (title_part self ++ link_part self ++ description_part self
       ++ author_part self ++ guid_part self ++ category_part self
       ++ comments_part self) ;;
    enclosure ← enclosure_part self;
    elements_checked (pubDate_part self ++ itunes_part self) ;;
    Ok (Element "item" [] None
          (title_part self ++ link_part self ++ description_part self
           ++ author_part self ++ guid_part self ++ category_part self
           ++ comments_part self ++ enclosure ++ pubDate_part self
           ++ itunes_part self)).

(** *** Stored values that lxml takes

    Every stored text passes lxml's check, a content marked CDATA is
    allowed in a CDATA section, the formatted publication date passes the
    check, and a stored enclosure has a text as its length and as its
    type. *)
Definition text_valid (v : option string) : bool :=
  from_option xml_compatible true v.

Definition content_valid (c : content_dict) : bool :=
  xml_compatible (content_content c)
  && (negb (String.eqb (default "" (content_type c)) "CDATA")
      || cdata_allowed (content_content c)).

Definition category_valid (cat : category_dict) : bool :=
  xml_compatible (category_value cat) && text_valid (category_domain cat).

Definition enclosure_valid (enc : enclosure_dict) : bool :=
  xml_compatible (enclosure_url enc)
  && match enclosure_length enc, enclosure_type enc with
     | Some (PyStr l), Some (PyStr t) => xml_compatible l && xml_compatible t
     | _, _ => false
     end.

Definition values_valid (self : episode) : bool :=
  text_valid (__rss_title self)
  && text_valid (__rss_link self)
  && text_valid (__rss_description self)
  && from_option content_valid true (__rss_content self)
  && forallb xml_compatible (default [] (__rss_author self))
  && text_valid (__rss_guid self)
  && forallb category_valid (default [] (__rss_category self))
  && text_valid (__rss_comments self)
  && from_option enclosure_valid true (__rss_enclosure self)
  && from_option (fun d => xml_compatible (formatRFC2822 d)) true
       (__rss_pubDate self)
  && text_valid (__itunes_author self)
  && text_valid (__itunes_image self)
  && text_valid (__itunes_duration self)
  && text_valid (__itunes_subtitle self)
  && text_valid (__itunes_summary self).

End External.

(** An author dict with the two keys [name] and [email]. *)
Definition author_record (name email : string) : dict :=
  {[ "name" := name; "email" := email ]}.

(** The text stored for one (name, email) pair. *)
Definition author_text (p : string * string) : string :=
  p.2 +:+ " (" +:+ p.1 +:+ ")".

(** A stored publication date, if any, knows its offset from UTC. *)
Definition timezone_aware (self : episode) : Prop :=
  forall d, __rss_pubDate self = Some d -> is_Some (tzinfo d).

(** Midnight of 1 January 2020, at UTC and without an offset. *)
Definition utc_2020 : datetime :=
  {| year := 2020; month := 1; day := 1; hour := 0; minute := 0; second := 0;
     tzinfo := Some 0%Z |}.
Definition naive_2020 : datetime :=
  {| year := 2020; month := 1; day := 1; hour := 0; minute := 0; second := 0;
     tzinfo := None |}.

(** The children of a rendered item that are named [description] or
    [encoded] (in the content namespace), in document order. *)
Definition is_description (x : element) : bool :=
  String.eqb (tag x) "description"
  || String.eqb (tag x) (qname CONTENT_NS "encoded").

Definition description_elements (item : element) : list element :=
  List.filter is_description (children item).

(** The children named [enclosure]. *)
Definition enclosure_elements (item : element) : list element :=
  List.filter (fun x => String.eqb (tag x) "enclosure") (children item).

End Episode.

(** ** [feedgen/media.py]: class [Media] *)

Module Media.

Inductive warning : Type :=
| NotSupportedByItunesWarning (msg : string)
| UserWarning (msg : string).

(** A computation that issues warnings and then returns or raises. *)
Definition W (A : Type) : Type := list warning * result A.

#[global] Instance W_ret : MRet W := fun _ a => ([], Ok a).
#[global] Instance W_bind : MBind W := fun _ _ f m =>
  match m with
  | (w, Ok a) => let '(w', r) := f a in (w ++ w', r)
  | (w, Raise e) => (w, Raise e)
  end.

Definition raise {A} (e : exn) : W A := ([], Raise e).
Definition warn (w : warning) : W unit := ([w], Ok tt).
Definition lift {A} (r : result A) : W A := ([], r).

Record media : Type := {
  _url : option string;
  _size : option Z;
  _type : option string
}.

Definition set_url (v : option string) (self : media) : media :=
  {| _url := v; _size := _size self; _type := _type self |}.
Definition set_size (v : option Z) (self : media) : media :=
  {| _url := _url self; _size := v; _type := _type self |}.
Definition set_type (v : option string) (self : media) : media :=
  {| _url := _url self; _size := _size self; _type := v |}.

Definition file_types : gmap string string :=
  list_to_map
    [("m4a", "audio/x-m4a");
     ("mp3", "audio/mpeg");
     ("mov", "video/quicktime");
     ("mp4", "video/mp4");
     ("m4v", "video/x-m4v");
     ("pdf", "application/pdf");
     ("epub", "document/x-epub")].

Definition units : gmap string Z :=
  list_to_map
    [("b", 1); ("kb", 1000); ("kib", 1024);
     ("mb", 1000 ^ 2); ("mib", 1024 ^ 2);
     ("gb", 1000 ^ 3); ("gib", 1024 ^ 3);
     ("tb", 1000 ^ 4); ("tib", 1024 ^ 4)]%Z.

(** [_str_to_bytes]: the number is read before the unit is looked up. *)
Definition _str_to_bytes (size : pyval) : result Z :=
  let size := PyStr.remove_spaces (PyStr.strip (PyStr.lower (py_str size))) in
  match PyNum.float_of_string (PyStr.rstrip "bkimgt" size) with
  | None =>
      Raise (ValueError ("could not convert string to float: '"
                         +:+ PyStr.rstrip "bkimgt" size +:+ "'"))
  | Some number =>
      let unit := PyStr.lstrip "0123456789." size in
      match units !! unit with
      | Some factor => PyNum.round (PyNum.mul number (PyNum.float_of_Z factor))
      | None => Raise (ValueError ("The unit " +:+ unit +:+ " was not recognized."))
      end
  end.

Definition size_zero_warning : warning :=
  UserWarning ("Size is set to 0. This should ONLY be done when "
               +:+ "there is no possible way to determine the "
               +:+ "media's size, like if the media is a stream.").

(** The body of the [try] of the size setter once [int(size)] gave [n]. *)
Definition store_size (self : media) (n : Z) : W media :=
  if (n <? 0)%Z
  then raise (ValueError "File size must be 0 if unknown, or a positive integer.")
  else
    let self := set_size (Some n) self in
    _ ← (if bool_decide (_size self = Some 0%Z)
         then warn size_zero_warning else mret tt);
    mret self.

(** The size setter assigns to [self.size] again in both handlers; [fuel]
    bounds the depth of that recursion and [None] says it ran out. *)
Fixpoint size_setter_rec (fuel : nat) (self : media) (size : option pyval)
  : option (W media) :=
  match fuel with
  | O => None
  | S fuel =>
      let again (v : pyval) : option (W media) :=
        (* except ValueError: self.size = self._str_to_bytes(size) *)
        match _str_to_bytes v with
        | Ok n => size_setter_rec fuel self (Some (PyInt n))
        | Raise e => Some (raise e)
        end in
      match size with
      | None =>
          (* int(None) is a TypeError and size is None: self.size = 0 *)
          size_setter_rec fuel self (Some (PyInt 0))
      | Some v =>
          match py_int v with
          | Ok n =>
              match store_size self n with
              | (_, Raise (ValueError _)) => again (PyInt n)
              | r => Some r
              end
          | Raise (ValueError _) => again v
          | Raise e => Some (raise e)
          end
      end
  end.

(** Two levels are all the setter ever uses: [size_setter_rec] returns
    the same with any larger [fuel], and never [None] (see
    [size_setter_rec_fuel] below). *)
Definition size_setter (self : media) (size : option pyval) : W media :=
  default (raise (RecursionError "maximum recursion depth exceeded"))
          (size_setter_rec 2 self size).

Definition type_setter (self : media) (type : option string) : W media :=
  match type with
  | None | Some EmptyString => raise (ValueError "Type cannot be empty or None")
  | Some t =>
      let type := PyStr.lower (PyStr.strip t) in
      _ ← (if bool_decide (type ∈ (map_to_list file_types).*2)
           then mret tt
           else warn (NotSupportedByItunesWarning
                        "Media type %s is not supported by iTunes."));
      mret (set_type (Some type) self)
  end.

(** The two components of a parsed URL that the class reads. *)
Record parse_result : Type := { scheme : string; path : string }.

Section Urlparse.

(** [urllib.parse.urlparse], on the texts it parses.  On a few texts (a
    host with an unbalanced bracket) it raises a ValueError instead; the
    properties of the url setter and of the constructor leave these out
    by what they assume of the scheme and the path it returns. *)
Variable urlparse : string -> parse_result.

(** The url setter; [None] for the url would be refused like the empty
    text. *)
Definition url_setter (self : media) (url : string) : W media :=
  if String.eqb url "" then raise (ValueError "url cannot be empty or None")
  else
    let parsed_url := urlparse url in
    let file_extension :=
      PyStr.lower (PyStr.last_field "." (path parsed_url)) in
    _ ← (if bool_decide (is_Some (file_types !! file_extension))
         then mret tt
         else warn (NotSupportedByItunesWarning
                      ("File extension " +:+ file_extension
                       +:+ " is not supported by iTunes.")));
    _ ← (if bool_decide (scheme parsed_url ∈ ["http"; "https"])
         then mret tt
         else warn (NotSupportedByItunesWarning
                      ("URL scheme " +:+ scheme parsed_url
                       +:+ " is not supported by iTunes. Make sure "
                       +:+ "you use absolute URLs and HTTP or HTTPS.")));
    mret (set_url (Some url) self).

Definition get_type (url : string) : result string :=
  let file_extension := PyStr.last_field "." (path (urlparse url)) in
  match file_types !! file_extension with
  | Some t => Ok t
  | None =>
      Raise (ValueError
               ("The file extension " +:+ file_extension
                +:+ " was not recognized, which "
                +:+ "means it's not supported by iTunes. If this is "
                +:+ "intended, please provide the type yourself so "
                +:+ "clients can see what type of file it is."))
  end.

(** The extension [get_type] looks up, and the failure it raises. *)
Definition extension (url : string) : string :=
  PyStr.last_field "." (path (urlparse url)).

Definition not_recognized (ext : string) : exn :=
  ValueError ("The file extension " +:+ ext
              +:+ " was not recognized, which "
              +:+ "means it's not supported by iTunes. If this is "
              +:+ "intended, please provide the type yourself so "
              +:+ "clients can see what type of file it is.").

(** [Media(url, size, type)]; the defaults are [size=0] and [type=None]. *)
Definition __init__ (url : string) (size : option pyval)
    (type : option string) : W media :=
  let self := {| _url := None; _size := None; _type := None |} in
  self ← url_setter self url;
  self ← size_setter self size;
  (* type or self.get_type(url) *)
  type ← (if PyStr.truthy type then mret type
          else lift (Some <$> get_type url));
  type_setter self type.

End Urlparse.

End Media.

(** ** Stand-ins for the two library parsers, for closed examples

    The statements below hold for every [urlparse] and every
    [dateutil_parse]; the examples need one of each.  These two read the
    plain forms [scheme://host/path?query#fragment] and
    [YYYY-MM-DDTHH:MM:SS] with an optional [+HH:MM], [-HH:MM] or [Z], as the
    libraries do on such input. *)

Module Standin.

Fixpoint cut_scheme (s : string) : option (string * string) :=
  match s with
  | EmptyString => None
  | String c s' =>
      match c, s' with
      | ":"%char, String "/" (String "/" r) => Some (EmptyString, r)
      | _, _ =>
          match cut_scheme s' with
          | Some (a, r) => Some (String c a, r)
          | None => None
          end
      end
  end.

Fixpoint until (stop s : string) : string * string :=
  match s with
  | EmptyString => (EmptyString, EmptyString)
  | String c s' =>
      if PyStr.mem c stop then (EmptyString, s)
      else let '(a, r) := until stop s' in (String c a, r)
  end.

Definition urlparse (url : string) : Media.parse_result :=
  match cut_scheme url with
  | Some (sch, r) =>
      {| Media.scheme := PyStr.lower sch;
         Media.path := fst (until "?#" (snd (until "/?#" r))) |}
  | None => {| Media.scheme := ""; Media.path := fst (until "?#" url) |}
  end.

(** [n] digits in front of [s] *)
Definition digits (n : nat) (s : string) : option (Z * string) :=
  let d := substring 0 n s in
  if (String.length d =? n)%nat
     && forallb PyNum.is_digit (list_ascii_of_string d)
  then Some (PyNum.Z_of_digits d, substring n (String.length s - n) s)
  else None.

Definition expect (c : ascii) (s : string) : option string :=
  match s with
  | String c' r => if Ascii.eqb c c' then Some r else None
  | EmptyString => None
  end.

Definition offset (s : string) : option (option Z) :=
  match s with
  | EmptyString => Some None
  | String "Z" EmptyString => Some (Some 0%Z)
  | String c r =>
      sign ← (if Ascii.eqb c "+" then Some 1%Z
              else if Ascii.eqb c "-" then Some (-1)%Z else None);
      '(h, r) ← digits 2 r;
      r ← expect ":" r;
      '(m, r) ← digits 2 r;
      if String.eqb r "" then Some (Some (sign * (60 * h + m))%Z) else None
  end.

Definition iso8601 (s : string) : option Episode.datetime :=
  '(y, r) ← digits 4 s; r ← expect "-" r;
  '(mo, r) ← digits 2 r; r ← expect "-" r;
  '(d, r) ← digits 2 r; r ← expect "T" r;
  '(h, r) ← digits 2 r; r ← expect ":" r;
  '(mi, r) ← digits 2 r; r ← expect ":" r;
  '(sec, r) ← digits 2 r;
  tz ← offset r;
  Some {| Episode.year := y; Episode.month := mo; Episode.day := d;
          Episode.hour := h; Episode.minute := mi; Episode.second := sec;
          Episode.tzinfo := tz |}.

Definition dateutil_parse (s : string) : result Episode.datetime :=
  match iso8601 s with
  | Some d => Ok d
  | None => Raise (ValueError ("Unknown string format: " +:+ s))
  end.

(** The weekday and month names are left out: day, month number, year,
    time, offset in minutes. *)
Definition formatRFC2822 (d : Episode.datetime) : string :=
  PyStr.of_Z (Episode.day d) +:+ " " +:+ PyStr.of_Z (Episode.month d)
  +:+ " " +:+ PyStr.of_Z (Episode.year d) +:+ " "
  +:+ PyStr.of_Z (Episode.hour d) +:+ ":" +:+ PyStr.of_Z (Episode.minute d)
  +:+ ":" +:+ PyStr.of_Z (Episode.second d) +:+ " "
  +:+ PyStr.of_Z (default 0%Z (Episode.tzinfo d)).

(** A CDATA section that takes every text but one that holds its own
    closing mark. *)
Definition cdata_allowed (s : string) : bool :=
  match String.index 0 "]]>" s with
  | Some _ => false
  | None => true
  end.

End Standin.


From Stdlib Require Import DecimalPos.
From stdpp Require Import sorting.

(** ** Decimal texts *)

(** A text of decimal digits only. *)
Definition all_digits (s : string) : bool :=
  forallb PyNum.is_digit (list_ascii_of_string s).

(** ** Reading a rendered item *)

Module Render.

(** The children of [item] with the tag [name], in document order. *)
Definition named (name : string) (item : element) : list element :=
  List.filter (fun x => String.eqb (tag x) name) (children item).

(** The tags of the elements [rss_entry] can emit, in the order of the
    blocks that emit them. *)
Definition tag_order : list string :=
  ["title"; "link"; "description";
   Episode.qname Episode.CONTENT_NS "encoded";
   "author"; "guid"; "category"; "comments"; "enclosure"; "pubDate";
   Episode.qname Episode.ITUNES_NS "author";
   Episode.qname Episode.ITUNES_NS "block";
   Episode.qname Episode.ITUNES_NS "image";
   Episode.qname Episode.ITUNES_NS "duration";
   Episode.qname Episode.ITUNES_NS "explicit";
   Episode.qname Episode.ITUNES_NS "isClosedCaptioned";
   Episode.qname Episode.ITUNES_NS "order";
   Episode.qname Episode.ITUNES_NS "subtitle";
   Episode.qname Episode.ITUNES_NS "summary"].

Fixpoint index_of (t : string) (l : list string) : nat :=
  match l with
  | [] => 0
  | x :: l' => if String.eqb t x then 0 else S (index_of t l')
  end.

(** The place of an element's tag in [tag_order]; 19 for any other tag. *)
Definition rank (x : element) : nat := index_of (tag x) tag_order.

(** [x] is not emitted after [y]. *)
Definition before (x y : element) : Prop := rank x <= rank y.

(** A run of elements in emission order whose ranks lie in [lo .. hi]. *)
Definition in_band (lo hi : nat) (l : list element) : Prop :=
  Forall (fun x => lo <= rank x <= hi) l /\ StronglySorted before l.

End Render.

(** ** [Media.create_from_server_response] *)

Module MediaServer.

(** What the factory can raise: its own RuntimeError, whatever the HTTP
    client raises, and what the constructor of [Media] raises. *)
Inductive server_exn : Type :=
| RuntimeError (msg : string)
| RequestException (msg : string)
| MediaError (e : exn).

Inductive server_result (A : Type) : Type :=
| Built (a : A)
| Failed (e : server_exn).
Arguments Built {A} a.
Arguments Failed {A} e.

(** Truth value of a size argument: [None], 0, the empty text and [False]
    are false. *)
Definition size_truthy (size : option pyval) : bool :=
  match size with
  | None => false
  | Some (PyStr s) => PyStr.truthy (Some s)
  | Some (PyInt n) => negb (n =? 0)%Z
  | Some (PyBool b) => b
  end.

Section Requests.

Variable urlparse : string -> Media.parse_result.

(** The HTTP client [requests]: a HEAD request gives a response or raises;
    [raise_for_status] raises on an error status; the headers of a
    response are a mapping from names to texts. *)
Variable response : Type.
Variable head : string -> server_result response.
Variable raise_for_status : response -> server_result unit.
Variable headers : response -> string -> option string.

Definition create_from_server_response (url : string) (size : option pyval)
    (type : option string) : list Media.warning * server_result Media.media :=
  let fetched : server_result (option pyval * option string) :=
    if negb (size_truthy size && PyStr.truthy type) then
      match head url with
      | Failed e => Failed e
      | Built r =>
          match raise_for_status r with
          | Failed e => Failed e
          | Built _ =>
              let size' : server_result (option pyval) :=
                if negb (size_truthy size) then
                  match headers r "Content-Length" with
                  | Some v => Built (Some (PyStr v))
                  | None =>
                      Failed (RuntimeError
                                ("Content-Length not returned by server "
                                 +:+ "when sending HEAD request to " +:+ url))
                  end
                else Built size in
              match size' with
              | Failed e => Failed e
              | Built size =>
                  if negb (PyStr.truthy type) then
                    match headers r "Content-Type" with
                    | Some v => Built (size, Some v)
                    | None =>
                        Failed (RuntimeError
                                  ("Content-Type header not returned by "
                                   +:+ "server when sending HEAD request to "
                                   +:+ url))
                    end
                  else Built (size, type)
              end
          end
      end
    else Built (size, type) in
  match fetched with
  | Failed e => ([], Failed e)
  | Built (size, type) =>
      match Media.__init__ urlparse url size type with
      | (w, Ok m) => (w, Built m)
      | (w, Raise e) => (w, Failed (MediaError e))
      end
  end.

End Requests.

(** What the factory makes of the constructor's result. *)
Definition constructed (r : Media.W Media.media)
  : list Media.warning * server_result Media.media :=
  match r with
  | (w, Ok m) => (w, Built m)
  | (w, Raise e) => (w, Failed (MediaError e))
  end.

(** A server that answers every request with the same two headers. *)
Definition fixed_headers (length type : string) (name : string)
  : option string :=
  if String.eqb name "Content-Length" then Some length
  else if String.eqb name "Content-Type" then Some type
  else None.

End MediaServer.


(** * Properties of [BaseEpisode] *)

Section EpisodeProperties.

Import Episode.

Variable dateutil_parse : string -> result datetime.
Variable formatRFC2822 : datetime -> string.
Variable cdata_allowed : string -> bool.

Local Abbreviation rss_entry := (Episode.rss_entry formatRFC2822 cdata_allowed).
Local Abbreviation published := (Episode.published dateutil_parse).

(** ** Rendering and the required fields *)

Lemma truthy_false (v : option string) :
  PyStr.truthy v = false <-> v = None \/ v = Some "".
Proof.
  destruct v as [[|c s]|]; simpl; split; intros H; auto;
    try discriminate; destruct H as [H|H]; discriminate.
Qed.

Lemma required_missing_true (e : episode) :
  required_missing e = true <->
  PyStr.truthy (__rss_title e) = false
  /\ PyStr.truthy (__rss_description e) = false
  /\ __rss_content e = None.
Proof.
  unfold required_missing.
  rewrite negb_true_iff, !orb_false_iff, bool_decide_eq_false.
  rewrite <- eq_None_not_Some. tauto.
Qed.

Lemma utf8_ok (s : string) : xml_compatible s = true -> _utf8 s = Ok s.
Proof. unfold _utf8. now intros ->. Qed.

Lemma utf8_raise (s : string) (x : exn) : _utf8 s = Raise x -> x = xml_error.
Proof. unfold _utf8. destruct (xml_compatible s); congruence. Qed.

Lemma elements_checked_app (l1 l2 : list element) :
  elements_checked cdata_allowed (l1 ++ l2)
  = (elements_checked cdata_allowed l1 ;; elements_checked cdata_allowed l2).
Proof.
  induction l1 as [|x l1 IH]; [reflexivity|].
  simpl. destruct (element_checked cdata_allowed x); [exact IH|reflexivity].
Qed.

Lemma attribs_checked_raise (l : list (string * string)) (err : exn) :
  attribs_checked l = Raise err -> err = xml_error.
Proof.
  induction l as [|[k v] l IH]; simpl; [discriminate|].
  destruct (_utf8 v) eqn:Hv; simpl; [exact IH|].
  intros [= <-]. eapply utf8_raise, Hv.
Qed.

(** What lxml raises on a text is one of its two ValueErrors. *)
Lemma element_checked_raise (x : element) (err : exn) :
  element_checked cdata_allowed x = Raise err ->
  err = xml_error \/ err = ValueError "']]>' not allowed inside CDATA".
Proof.
  unfold element_checked.
  destruct (txt x) as [[s|s]|]; simpl.
  - destruct (_utf8 s) eqn:Hs; simpl.
    + intros H. left. eapply attribs_checked_raise, H.
    + intros [= <-]. left. eapply utf8_raise, Hs.
  - destruct (_utf8 s) eqn:Hs; simpl.
    + destruct (cdata_allowed s); simpl.
      * intros H. left. eapply attribs_checked_raise, H.
      * intros [= <-]. now right.
    + intros [= <-]. left. eapply utf8_raise, Hs.
  - intros H. left. eapply attribs_checked_raise, H.
Qed.

Lemma elements_checked_raise (l : list element) (err : exn) :
  elements_checked cdata_allowed l = Raise err ->
  err = xml_error \/ err = ValueError "']]>' not allowed inside CDATA".
Proof.
  induction l as [|x l IH]; simpl; [discriminate|].
  destruct (element_checked cdata_allowed x) eqn:Hx; simpl; [exact IH|].
  intros [= <-]. eapply element_checked_raise, Hx.
Qed.

(** The enclosure block fails on a text lxml refuses, or with a TypeError
    on a length or type that is no text. *)
Lemma enclosure_part_raise (e : episode) (err : exn) :
  enclosure_part e = Raise err ->
  err = xml_error
  \/ exists enc v,
       __rss_enclosure e = Some enc
       /\ (v = enclosure_length enc \/ v = enclosure_type enc)
       /\ (forall s, v <> Some (PyStr s))
       /\ err = TypeError ("Argument must be bytes or unicode, got '"
                           +:+ type_name v +:+ "'").
Proof.
  unfold enclosure_part.
  destruct (__rss_enclosure e) as [[u l t]|]; [|discriminate]. simpl.
  destruct (_utf8 u) eqn:Hu; simpl;
    [|intros [= <-]; left; eapply utf8_raise, Hu].
  destruct l as [[l|n|b]|]; simpl;
    try (intros [= <-]; right; eexists _, _; split; [reflexivity|];
         split; [left; reflexivity|]; split; [discriminate|reflexivity]).
  destruct (_utf8 l) eqn:Hl; simpl;
    [|intros [= <-]; left; eapply utf8_raise, Hl].
  destruct t as [[t|n|b]|]; simpl;
    try (intros [= <-]; right; eexists _, _; split; [reflexivity|];
         split; [right; reflexivity|]; split; [discriminate|reflexivity]).
  destruct (_utf8 t) eqn:Ht; simpl; [discriminate|].
  intros [= <-]; left; eapply utf8_raise, Ht.
Qed.

(** A returned enclosure block, when an enclosure is stored, is the one
    element with the three texts. *)
Lemma enclosure_part_inv (e : episode) (l : list element) :
  enclosure_part e = Ok l ->
  match __rss_enclosure e with
  | None => l = []
  | Some enc =>
      exists n t,
        enclosure_length enc = Some (PyStr n)
        /\ enclosure_type enc = Some (PyStr t)
        /\ l = [Element "enclosure"
                  [("url", enclosure_url enc); ("length", n); ("type", t)]
                  None []]
  end.
Proof.
  unfold enclosure_part.
  destruct (__rss_enclosure e) as [[u n t]|]; [|now intros [= <-]]. simpl.
  unfold _utf8 at 1. destruct (xml_compatible u); [|discriminate]. simpl.
  destruct n as [[n|?|?]|]; try discriminate. simpl.
  unfold _utf8 at 1. destruct (xml_compatible n); [|discriminate]. simpl.
  destruct t as [[t|?|?]|]; try discriminate. simpl.
  unfold _utf8 at 1. destruct (xml_compatible t); [|discriminate]. simpl.
  intros [= <-]. eauto.
Qed.

Lemma enclosure_part_valid (e : episode) :
  from_option enclosure_valid true (__rss_enclosure e) = true ->
  exists l, enclosure_part e = Ok l.
Proof.
  unfold enclosure_part, enclosure_valid.
  destruct (__rss_enclosure e) as [[u n t]|]; [|eauto]. simpl.
  destruct n as [[n|?|?]|]; try (rewrite andb_false_r; discriminate).
  destruct t as [[t|?|?]|]; try (rewrite andb_false_r; discriminate).
  rewrite !andb_true_iff. intros (Hu & Hn & Ht).
  simpl. rewrite !utf8_ok by assumption. simpl. eauto.
Qed.

(** What a returned item is made of. *)
Lemma rss_entry_ok (e : episode) (item : element) :
  rss_entry e = Ok item ->
  required_missing e = false
  /\ exists enc,
       enclosure_part e = Ok enc
       /\ item = Element "item" [] None
                   (title_part e ++ link_part e ++ description_part e
                    ++ author_part e ++ guid_part e ++ category_part e
                    ++ comments_part e ++ enc
                    ++ Episode.pubDate_part formatRFC2822 e
                    ++ itunes_part e).
Proof.
  unfold Episode.rss_entry.
  destruct (required_missing e); [discriminate|].
  destruct (elements_checked cdata_allowed (title_part e ++ _));
    simpl; [|discriminate].
  destruct (enclosure_part e) as [enc|x]; simpl; [|discriminate].
  destruct (elements_checked cdata_allowed (Episode.pubDate_part _ e ++ _));
    simpl; [|discriminate].
  intros [= <-]. eauto.
Qed.

(** A failure of [rss_entry] is its own, or one of lxml's. *)
Lemma rss_entry_raise (e : episode) (err : exn) :
  rss_entry e = Raise err ->
  (required_missing e = true /\ err = ValueError "Required fields not set")
  \/ (required_missing e = false
      /\ (err = xml_error
          \/ err = ValueError "']]>' not allowed inside CDATA"
          \/ exists enc v,
               __rss_enclosure e = Some enc
               /\ (v = enclosure_length enc \/ v = enclosure_type enc)
               /\ (forall s, v <> Some (PyStr s))
               /\ err = TypeError ("Argument must be bytes or unicode, got '"
                                   +:+ type_name v +:+ "'"))).
Proof.
  unfold Episode.rss_entry.
  destruct (required_missing e); [intros [= <-]; now left|].
  intros H. right. split; [reflexivity|]. revert H.
  destruct (elements_checked cdata_allowed (title_part e ++ _)) eqn:H1; simpl;
    [|intros [= <-]; destruct (elements_checked_raise _ _ H1); auto].
  destruct (enclosure_part e) as [enc|x] eqn:H2; simpl;
    [|intros [= <-]; destruct (enclosure_part_raise _ _ H2); auto].
  destruct (elements_checked cdata_allowed (Episode.pubDate_part _ e ++ _))
    eqn:H3; simpl; [discriminate|].
  intros [= <-]; destruct (elements_checked_raise _ _ H3); auto.
Qed.

(** *** Valid values pass every check *)

Lemma xml_compatible_uint (d : Decimal.uint) :
  xml_compatible (NilEmpty.string_of_uint d) = true.
Proof. induction d; simpl; auto. Qed.

(** The decimal text of an int passes lxml's check. *)
Lemma xml_compatible_of_Z (n : Z) : xml_compatible (PyStr.of_Z n) = true.
Proof.
  unfold PyStr.of_Z, NilZero.string_of_int, NilZero.string_of_uint.
  destruct (Z.to_int n) as [d|d]; destruct d; simpl;
    try reflexivity; apply xml_compatible_uint.
Qed.

Lemma leaf_checked (name s : string) :
  xml_compatible s = true ->
  element_checked cdata_allowed (leaf name s) = Ok tt.
Proof. intros H. unfold element_checked. simpl. now rewrite utf8_ok. Qed.

Lemma if_true_checked (v : option string) (f : string -> element) :
  text_valid v = true ->
  (forall s, xml_compatible s = true ->
             element_checked cdata_allowed (f s) = Ok tt) ->
  elements_checked cdata_allowed (if_true v f) = Ok tt.
Proof.
  intros Hv Hf. unfold if_true.
  destruct v as [s|]; [|reflexivity].
  destruct (PyStr.truthy (Some s)); [|reflexivity].
  simpl. now rewrite Hf.
Qed.

Lemma map_checked {A} (P : A -> bool) (f : A -> element) (l : list A) :
  forallb P l = true ->
  (forall a, P a = true -> element_checked cdata_allowed (f a) = Ok tt) ->
  elements_checked cdata_allowed (List.map f l) = Ok tt.
Proof.
  intros Hl Hf. induction l as [|a l IH]; [reflexivity|].
  simpl in *. apply andb_true_iff in Hl as [Ha Hl].
  now rewrite Hf, IH.
Qed.

Lemma description_part_checked (e : episode) :
  text_valid (__rss_description e) = true ->
  from_option (content_valid cdata_allowed) true (__rss_content e) = true ->
  elements_checked cdata_allowed (description_part e) = Ok tt.
Proof.
  unfold description_part, content_valid, text_valid.
  destruct (__rss_description e) as [d|], (__rss_content e) as [c|];
    cbn [from_option]; intros Hd Hc; try reflexivity.
  - apply andb_true_iff in Hc as [Hc Ht].
    destruct (PyStr.truthy (Some d)); cbn [elements_checked];
      rewrite leaf_checked by assumption; [|reflexivity].
    unfold encoded, element_checked.
    cbn [txt attrib from_option attribs_checked].
    destruct (String.eqb _ "CDATA"); simpl in Ht |- *;
      rewrite utf8_ok by assumption; simpl; [now rewrite Ht|reflexivity].
  - destruct (PyStr.truthy (Some d)); [|reflexivity].
    cbn [elements_checked]. now rewrite leaf_checked.
  - apply andb_true_iff in Hc as [Hc Ht].
    cbn [elements_checked]. now rewrite leaf_checked.
Qed.

Lemma itunes_part_checked (e : episode) :
  text_valid (__itunes_author e) = true ->
  text_valid (__itunes_image e) = true ->
  text_valid (__itunes_duration e) = true ->
  text_valid (__itunes_subtitle e) = true ->
  text_valid (__itunes_summary e) = true ->
  elements_checked cdata_allowed (itunes_part e) = Ok tt.
Proof.
  intros Ha Hi Hd Hsub Hsum. unfold itunes_part.
  rewrite !elements_checked_app.
  rewrite !if_true_checked;
    try assumption; try (intros s Hs; apply leaf_checked, Hs);
    try (intros s Hs; unfold element_checked; simpl; now rewrite utf8_ok).
  simpl.
  assert (Hblock : forall b : option bool,
             elements_checked cdata_allowed
               (match b with
                | Some b => [leaf (qname ITUNES_NS "block") (yes_no b)]
                | None => []
                end) = Ok tt)
    by (intros [[|]|]; reflexivity).
  assert (Hcc : forall b : option bool,
             elements_checked cdata_allowed
               (match b with
                | Some b => [leaf (qname ITUNES_NS "isClosedCaptioned") (yes_no b)]
                | None => []
                end) = Ok tt)
    by (intros [[|]|]; reflexivity).
  rewrite Hblock, Hcc. simpl.
  assert (Hexp : elements_checked cdata_allowed
             (match __itunes_explicit e with
              | Some x =>
                  if bool_decide (x ∈ ["yes"; "no"; "clean"])
                  then [leaf (qname ITUNES_NS "explicit") x] else []
              | None => []
              end) = Ok tt).
  { destruct (__itunes_explicit e) as [x|]; [|reflexivity].
    destruct (bool_decide (x ∈ ["yes"; "no"; "clean"])) eqn:Hx; [|reflexivity].
    apply bool_decide_eq_true in Hx.
    simpl. rewrite leaf_checked; [reflexivity|].
    apply elem_of_cons in Hx as [->|Hx]; [reflexivity|].
    apply elem_of_cons in Hx as [->|Hx]; [reflexivity|].
    apply elem_of_cons in Hx as [->|Hx]; [reflexivity|].
    now apply elem_of_nil in Hx. }
  rewrite Hexp. simpl.
  destruct (__itunes_order e) as [n|]; [|reflexivity].
  destruct (0 <=? n)%Z; [|reflexivity].
  simpl. now rewrite leaf_checked by apply xml_compatible_of_Z.
Qed.

(** With valid values no check of [rss_entry] fails. *)
Lemma values_valid_checked (e : episode) :
  values_valid formatRFC2822 cdata_allowed e = true ->
  elements_checked cdata_allowed
    (title_part e ++ link_part e ++ description_part e ++ author_part e
     ++ guid_part e ++ category_part e ++ comments_part e) = Ok tt
  /\ (exists l, enclosure_part e = Ok l)
  /\ elements_checked cdata_allowed
       (Episode.pubDate_part formatRFC2822 e ++ itunes_part e) = Ok tt.
Proof.
  unfold values_valid. rewrite !andb_true_iff.
  intros ((((((((((((((Ht & Hl) & Hd) & Hc) & Ha) & Hg) & Hcat) & Hcom)
            & Henc) & Hp) & Hia) & Hii) & Hidur) & Hisub) & Hisum).
  split; [|split].
  - rewrite !elements_checked_app.
    unfold title_part, link_part, guid_part, comments_part, author_part,
      category_part.
    rewrite !if_true_checked;
      try assumption; try (intros s Hs; apply leaf_checked, Hs);
      try (intros s Hs; unfold element_checked; simpl; now rewrite utf8_ok).
    rewrite description_part_checked by assumption.
    rewrite (map_checked xml_compatible) by
      (try assumption; intros a Hs; apply leaf_checked, Hs).
    rewrite (map_checked category_valid); [reflexivity|assumption|].
    intros [v [d|]]; unfold category_valid, category_element, element_checked;
      simpl; rewrite andb_true_iff; intros [Hv Hdom];
      rewrite utf8_ok by assumption; simpl; [|reflexivity].
    destruct d as [|c d]; [reflexivity|].
    cbn [attribs_checked]. now rewrite utf8_ok.
  - apply enclosure_part_valid, Henc.
  - rewrite elements_checked_app, itunes_part_checked by assumption.
    unfold Episode.pubDate_part.
    destruct (__rss_pubDate e) as [d|]; [|reflexivity].
    simpl in *. now rewrite leaf_checked.
Qed.

(** C1, amended.  [rss_entry] raises its validation failure, "Required
    fields not set", exactly when none of title, description and content
    holds a true value: title and description are each unset or the empty
    text, and content is unset.  An item it returns is for an episode
    where one of the three holds a true value, and is an element named
    [item].  When one of the three holds a true value and every stored
    value is valid (each text passes lxml's check, a content marked CDATA
    is allowed in a CDATA section, a stored enclosure has a text as its
    length and as its type), the call returns an element named [item]. *)
Theorem rss_entry_required_fields (e : episode) :
  (rss_entry e = Raise (ValueError "Required fields not set") <->
     (__rss_title e = None \/ __rss_title e = Some "")
     /\ (__rss_description e = None \/ __rss_description e = Some "")
     /\ __rss_content e = None)
  /\ (forall item,
        rss_entry e = Ok item ->
        (PyStr.truthy (__rss_title e) = true
         \/ PyStr.truthy (__rss_description e) = true
         \/ is_Some (__rss_content e))
        /\ item = Element "item" [] None (children item))
  /\ (PyStr.truthy (__rss_title e) = true
      \/ PyStr.truthy (__rss_description e) = true
      \/ is_Some (__rss_content e) ->
      values_valid formatRFC2822 cdata_allowed e = true ->
      exists kids, rss_entry e = Ok (Element "item" [] None kids)).
Proof.
  rewrite <- !truthy_false, <- required_missing_true.
  split; [|split].
  - split.
    + intros H. apply rss_entry_raise in H as [[H _]|[_ H]]; [exact H|].
      destruct H as [H|[H|(enc & v & _ & _ & _ & H)]]; discriminate H.
    + unfold Episode.rss_entry. now intros ->.
  - intros item H. apply rss_entry_ok in H as (Hreq & enc & _ & ->).
    split; [|reflexivity].
    unfold required_missing in Hreq.
    apply negb_false_iff in Hreq. rewrite !orb_true_iff in Hreq.
    destruct Hreq as [[H|H]|H]; auto.
    right. right. now apply bool_decide_eq_true in H.
  - intros Hone Hvalid.
    destruct (values_valid_checked e Hvalid) as (H1 & [l H2] & H3).
    unfold Episode.rss_entry.
    destruct (required_missing e) eqn:Hreq.
    + apply required_missing_true in Hreq as (Ht & Hd & Hc).
      rewrite Ht, Hd, Hc in Hone.
      destruct Hone as [H|[H|[x H]]]; discriminate.
    + rewrite H1, H2, H3. simpl. eauto.
Qed.

(** ** The description and content elements *)

Lemma filter_if_true (P : element -> bool) (v : option string)
    (f : string -> element) :
  (forall s, P (f s) = false) -> List.filter P (if_true v f) = [].
Proof.
  intros H. unfold if_true.
  destruct v as [s|]; [|reflexivity].
  destruct (PyStr.truthy (Some s)); [|reflexivity].
  simpl. now rewrite H.
Qed.

Lemma filter_map_none {A} (P : element -> bool) (f : A -> element) (l : list A) :
  (forall a, P (f a) = false) -> List.filter P (List.map f l) = [].
Proof.
  intros H. induction l as [|a l IH]; [reflexivity|].
  simpl. now rewrite H.
Qed.

Lemma filter_enclosure_part (P : element -> bool) (e : episode) l :
  (forall a t, P (Element "enclosure" a t []) = false) ->
  enclosure_part e = Ok l -> List.filter P l = [].
Proof.
  intros H Hl. apply enclosure_part_inv in Hl.
  destruct (__rss_enclosure e) as [enc|]; [|now subst].
  destruct Hl as (n & t & _ & _ & ->). simpl. now rewrite H.
Qed.

Lemma filter_itunes_part (P : element -> bool) (e : episode) :
  (forall name a t, P (Element (qname ITUNES_NS name) a t []) = false) ->
  List.filter P (itunes_part e) = [].
Proof.
  intros H. unfold itunes_part.
  rewrite !List.filter_app, !filter_if_true by (intros; apply H).
  destruct (__itunes_block e), (__itunes_explicit e) as [x|],
    (__itunes_is_closed_captioned e), (__itunes_order e) as [n|];
    try destruct (bool_decide (x ∈ _)); try destruct (0 <=? n)%Z;
    simpl; unfold leaf; now rewrite ?H.
Qed.

Lemma is_description_itunes name a t :
  is_description (Element (qname ITUNES_NS name) a t []) = false.
Proof. reflexivity. Qed.

Lemma description_part_filter (e : episode) :
  List.filter is_description (description_part e) = description_part e.
Proof.
  unfold description_part.
  destruct (__rss_description e) as [d|], (__rss_content e) as [c|];
    try destruct (PyStr.truthy (Some d)); reflexivity.
Qed.

(** Of all the blocks of [rss_entry], the description block alone emits
    elements named [description] or [encoded]. *)
Lemma description_elements_entry (e : episode) (item : element) :
  rss_entry e = Ok item -> description_elements item = description_part e.
Proof.
  intros H. apply rss_entry_ok in H as (_ & enc & Henc & ->).
  unfold description_elements. simpl.
  rewrite !List.filter_app, description_part_filter.
  unfold title_part, link_part, guid_part, comments_part, author_part,
    category_part, pubDate_part.
  rewrite !filter_if_true by reflexivity.
  rewrite !filter_map_none by reflexivity.
  rewrite (filter_enclosure_part _ e enc) by (reflexivity || assumption).
  rewrite filter_itunes_part by apply is_description_itunes.
  destruct (__rss_pubDate e); simpl; now rewrite app_nil_r.
Qed.

(** C2, amended.  Whenever [rss_entry] returns an item: with a non-empty
    description and a content, the item holds a [description] element with
    the description text followed by an [encoded] element of the content
    namespace whose text is the content, CDATA-wrapped exactly when the
    stored type is "CDATA"; with a non-empty description and no content,
    just the [description] element; with a content and a description that
    is unset or empty, one [description] element carrying the content's
    text. *)
Theorem rss_entry_description (e : episode) (item : element) :
  rss_entry e = Ok item ->
  (forall d c,
      __rss_description e = Some d -> d <> "" -> __rss_content e = Some c ->
      description_elements item =
        [Element "description" [] (Some (Plain d)) [];
         Element (qname CONTENT_NS "encoded") []
           (Some (if bool_decide (content_type c = Some "CDATA")
                  then CDATA (content_content c)
                  else Plain (content_content c))) []])
  /\ (forall d,
        __rss_description e = Some d -> d <> "" -> __rss_content e = None ->
        description_elements item = [Element "description" [] (Some (Plain d)) []])
  /\ (forall c,
        __rss_description e = None \/ __rss_description e = Some "" ->
        __rss_content e = Some c ->
        description_elements item =
          [Element "description" [] (Some (Plain (content_content c))) []]).
Proof.
  intros Hitem. rewrite (description_elements_entry e item Hitem).
  unfold description_part. repeat split.
  - intros d c -> Hd ->. destruct d as [|a d]; [congruence|]. simpl.
    unfold leaf, encoded. do 4 f_equal.
    destruct (content_type c) as [t|]; simpl.
    + destruct (String.eqb_spec t "CDATA") as [->|Hne].
      * now rewrite bool_decide_eq_true_2.
      * rewrite bool_decide_eq_false_2; [reflexivity|congruence].
    + reflexivity.
  - intros d -> Hd ->. destruct d as [|a d]; [congruence|]. reflexivity.
  - intros c [-> | ->] ->; reflexivity.
Qed.

(** ** The publication date *)

Lemma author_pubDate (e : episode) a r k :
  __rss_pubDate (fst (author e a r k)) = __rss_pubDate e.
Proof.
  unfold author. destruct e. repeat case_match; reflexivity.
Qed.

Lemma category_pubDate (e : episode) a r k :
  __rss_pubDate (fst (category e a r k)) = __rss_pubDate e.
Proof.
  unfold category. destruct e. repeat case_match; reflexivity.
Qed.

Lemma published_aware (e : episode) arg :
  timezone_aware e -> timezone_aware (fst (published e arg)).
Proof.
  unfold timezone_aware, Episode.published. intros He.
  destruct arg as [[s|d|v]|]; simpl; try assumption.
  - destruct (dateutil_parse s) as [d|x]; [|assumption].
    destruct (tzinfo d) as [z|] eqn:Hz; [|assumption].
    destruct e; simpl. intros d' [= <-]. rewrite Hz. eauto.
  - destruct (tzinfo d) as [z|] eqn:Hz; [|assumption].
    destruct e; simpl. intros d' [= <-]. rewrite Hz. eauto.
Qed.

(** No accessor but [published] and [pubdate] assigns the publication
    date, and these two store none without an offset. *)
Lemma step_aware (e : episode) (c : call) :
  timezone_aware e -> timezone_aware (step dateutil_parse e c).
Proof.
  intros He. destruct c; simpl;
    try (apply published_aware; assumption);
    unfold timezone_aware;
    rewrite ?author_pubDate, ?category_pubDate; try assumption;
    unfold title, guid, content, link, description, comments, enclosure,
      itunes_author, itunes_block, itunes_image, itunes_duration,
      itunes_explicit, itunes_is_closed_captioned, itunes_order,
      itunes_subtitle, itunes_summary;
    repeat case_match; destruct e; simpl in *; assumption.
Qed.

Lemma run_aware (calls : list call) : timezone_aware (run dateutil_parse calls).
Proof.
  unfold run.
  assert (H : timezone_aware Episode.__init__) by (intros d; discriminate).
  revert H. generalize Episode.__init__ as e.
  induction calls as [|c calls IH]; intros e He; simpl; [assumption|].
  apply IH, step_aware, He.
Qed.

(** C7.  Provided the date parser reads the two texts as dateutil does (the
    first as midnight of 1 January 2020 at UTC, the second as the same
    instant without an offset): [published] with the first text succeeds
    and a call without argument then returns the parsed datetime;
    [published] with the second text raises a validation failure and
    stores nothing; and after any sequence of accessor calls on a new
    episode, a stored publication date carries an offset. *)
Theorem published_needs_timezone (e : episode) :
  dateutil_parse "2020-01-01T00:00:00+00:00" = Ok utc_2020 ->
  dateutil_parse "2020-01-01T00:00:00" = Ok naive_2020 ->
  (let e' := fst (published e (Some (PubStr "2020-01-01T00:00:00+00:00"))) in
   published e (Some (PubStr "2020-01-01T00:00:00+00:00"))
     = (e', Ok (Some utc_2020))
   /\ published e' None = (e', Ok (Some utc_2020)))
  /\ published e (Some (PubStr "2020-01-01T00:00:00"))
     = (e, Raise (ValueError "Datetime object has no timezone info"))
  /\ (forall calls, timezone_aware (run dateutil_parse calls)).
Proof.
  intros Hutc Hnaive. unfold Episode.published.
  rewrite Hutc, Hnaive. simpl. repeat split.
  - destruct e; reflexivity.
  - destruct e; reflexivity.
  - apply run_aware.
Qed.

(** ** A failed setter changes nothing *)

(** C9, amended.  When [published], [itunes_image] or [itunes_explicit]
    raises, the episode is what it was before the call (and so it is with
    [itunes_order], the one other accessor whose own code can raise a
    ValueError); and each of the three does raise a validation failure on
    the arguments it is to refuse: a value that is no datetime, a datetime
    (given or parsed) without an offset, a name that ends in none of .jpg,
    .jpeg, .png whatever the case, a value outside "", "yes", "no",
    "clean".  Not so with [author]: when it raises, the author list is
    empty if [replace] was asked or no list was stored, and only then is
    the episode changed. *)
Theorem failed_setter_keeps_state (e : episode) :
  (forall arg x, snd (published e arg) = Raise x -> fst (published e arg) = e)
  /\ (forall arg x,
        snd (itunes_image e arg) = Raise x -> fst (itunes_image e arg) = e)
  /\ (forall arg x,
        snd (itunes_explicit e arg) = Raise x -> fst (itunes_explicit e arg) = e)
  /\ (forall arg x,
        snd (itunes_order e arg) = Raise x -> fst (itunes_order e arg) = e)
  /\ (forall v, published e (Some (PubOther v))
                = (e, Raise (ValueError "Invalid datetime format")))
  /\ (forall d, tzinfo d = None ->
                published e (Some (PubDatetime d))
                = (e, Raise (ValueError "Datetime object has no timezone info")))
  /\ (forall s d, dateutil_parse s = Ok d -> tzinfo d = None ->
                  published e (Some (PubStr s))
                  = (e, Raise (ValueError "Datetime object has no timezone info")))
  /\ (forall image,
        PyStr.endswith_any [".jpg"; ".jpeg"; ".png"] (PyStr.lower image) = false ->
        fst (itunes_image e (Some image)) = e
        /\ is_value_error (snd (itunes_image e (Some image))) = true)
  /\ (forall v, v ∉ [""; "yes"; "no"; "clean"] ->
                fst (itunes_explicit e (Some v)) = e
                /\ is_value_error (snd (itunes_explicit e (Some v))) = true)
  /\ (forall a replace kwargs x,
        snd (author e a replace kwargs) = Raise x ->
        fst (author e a replace kwargs)
        = if replace || bool_decide (__rss_author e = None)
          then set_rss_author (Some []) e else e).
Proof.
  split; [|split; [|split; [|split; [|split; [|split; [|split;
    [|split; [|split]]]]]]]].
  - intros arg x. unfold Episode.published.
    repeat case_match; simpl; congruence.
  - intros arg x. unfold itunes_image. repeat case_match; simpl; congruence.
  - intros arg x. unfold itunes_explicit. repeat case_match; simpl; congruence.
  - intros arg x. unfold itunes_order. repeat case_match; simpl; congruence.
  - reflexivity.
  - intros d Hd. unfold Episode.published. now rewrite Hd.
  - intros s d Hs Hd. unfold Episode.published. now rewrite Hs, Hd.
  - intros image H. unfold itunes_image. now rewrite H.
  - intros v H. unfold itunes_explicit. now rewrite bool_decide_eq_false_2.
  - intros a r k x. unfold author.
    destruct a as [a|]; [|destruct (bool_decide (k = ∅))]; simpl;
      try discriminate;
      destruct (ensure_format _ _ _) as [l|y]; simpl; try reflexivity;
      destruct (format_authors l); simpl; try reflexivity; discriminate.
Qed.

(** ** Reading an attribute back *)

(** C3.  Called without an argument, an accessor leaves the episode as it
    is.  Every accessor but one then returns the stored attribute.
    [itunes_duration] stores the text of its argument, but what it returns,
    with or without an argument, is its own bound method and never the
    stored duration. *)
Theorem itunes_duration_returns_method (e : episode) :
  (forall v, __itunes_duration (fst (itunes_duration e (Some v)))
             = Some (py_str v))
  /\ (forall arg, snd (itunes_duration e arg)
                  = BoundMethod (fst (itunes_duration e arg)) "itunes_duration")
  /\ itunes_duration e None = (e, BoundMethod e "itunes_duration")
  /\ snd (itunes_duration e None) <> Attribute (__itunes_duration e)
  /\ title e None = (e, __rss_title e)
  /\ guid e None = (e, __rss_guid e)
  /\ author e None false ∅ = (e, Ok (__rss_author e))
  /\ content e None None = (e, __rss_content e)
  /\ link e None = (e, __rss_link e)
  /\ description e None = (e, __rss_description e)
  /\ category e None false ∅ = (e, Ok (__rss_category e))
  /\ published e None = (e, Ok (__rss_pubDate e))
  /\ pubdate dateutil_parse e None = (e, Ok (__rss_pubDate e))
  /\ comments e None = (e, __rss_comments e)
  /\ enclosure e None None None = (e, __rss_enclosure e)
  /\ itunes_author e None = (e, __itunes_author e)
  /\ itunes_block e None = (e, __itunes_block e)
  /\ itunes_image e None = (e, Ok (__itunes_image e))
  /\ itunes_explicit e None = (e, Ok (__itunes_explicit e))
  /\ itunes_is_closed_captioned e None = (e, __itunes_is_closed_captioned e)
  /\ itunes_order e None = (e, Ok (__itunes_order e))
  /\ itunes_subtitle e None = (e, __itunes_subtitle e)
  /\ itunes_summary e None = (e, __itunes_summary e).
Proof.
  split; [intros v; destruct e; reflexivity|].
  split; [intros arg; reflexivity|].
  split; [reflexivity|].
  split; [discriminate|].
  repeat split.
Qed.

(** ** The enclosure *)

Lemma required_missing_enclosure (e : episode) v :
  required_missing (set_rss_enclosure v e) = required_missing e.
Proof. destruct e; reflexivity. Qed.

Lemma is_enclosure_itunes name a t :
  String.eqb (tag (Element (qname ITUNES_NS name) a t [])) "enclosure" = false.
Proof. reflexivity. Qed.

Lemma enclosure_elements_entry (e : episode) (item : element) :
  rss_entry e = Ok item -> Ok (enclosure_elements item) = enclosure_part e.
Proof.
  intros H. apply rss_entry_ok in H as (_ & enc & Henc & ->).
  rewrite Henc. unfold enclosure_elements. simpl.
  rewrite !List.filter_app.
  unfold title_part, link_part, guid_part, comments_part, author_part,
    category_part, pubDate_part.
  rewrite !filter_if_true by reflexivity.
  rewrite !filter_map_none by reflexivity.
  rewrite filter_itunes_part by apply is_enclosure_itunes.
  assert (Hd : List.filter (fun x => String.eqb (tag x) "enclosure")
                 (description_part e) = []).
  { unfold description_part.
    destruct (__rss_description e) as [d|], (__rss_content e) as [c|];
      try destruct (PyStr.truthy (Some d)); reflexivity. }
  rewrite Hd.
  assert (He : List.filter (fun x => String.eqb (tag x) "enclosure") enc = enc).
  { apply enclosure_part_inv in Henc.
    destruct (__rss_enclosure e) as [stored|]; [|now subst].
    now destruct Henc as (n & t & _ & _ & ->). }
  rewrite He.
  destruct (__rss_pubDate e); simpl; now rewrite app_nil_r.
Qed.

Lemma rss_entry_set_enclosure (e : episode) (v : option enclosure_dict) :
  rss_entry (set_rss_enclosure v e)
  = if required_missing e
    then Raise (ValueError "Required fields not set")
    else
      elements_checked cdata_allowed
        (title_part e ++ link_part e ++ description_part e
         ++ author_part e ++ guid_part e ++ category_part e
         ++ comments_part e) ;;
      enclosure ← enclosure_part (set_rss_enclosure v e);
      elements_checked cdata_allowed
        (Episode.pubDate_part formatRFC2822 e ++ itunes_part e) ;;
      Ok (Element "item" [] None
            (title_part e ++ link_part e ++ description_part e
             ++ author_part e ++ guid_part e ++ category_part e
             ++ comments_part e ++ enclosure
             ++ Episode.pubDate_part formatRFC2822 e ++ itunes_part e)).
Proof. destruct e; reflexivity. Qed.

(** C6, amended.  Called with a url, [enclosure] stores the url, the length
    and the type together, each as it was passed: a length or type left out
    is stored as [None].  Called without a url it stores nothing, whatever
    the length and type it is given.  When [rss_entry] returns an item for
    an episode with an enclosure, the stored length and type are texts and
    the item has one [enclosure] element that carries the three
    attributes; and it does return one when url, length and type are
    texts that pass lxml's check and the episode renders without its
    enclosure. *)
Theorem enclosure_stores_arguments (e : episode) (url : string)
    (length type : option pyval) :
  let stored := {| enclosure_url := url; enclosure_length := length;
                   enclosure_type := type |} in
  let e' := fst (enclosure e (Some url) length type) in
  __rss_enclosure e' = Some stored
  /\ enclosure e' None None None = (e', Some stored)
  /\ (forall l t, enclosure e None l t = (e, __rss_enclosure e))
  /\ (forall item,
        rss_entry e' = Ok item ->
        exists l t,
          length = Some (PyStr l) /\ type = Some (PyStr t)
          /\ enclosure_elements item
             = [Element "enclosure" [("url", url); ("length", l); ("type", t)]
                        None []])
  /\ (forall l t item0,
        length = Some (PyStr l) -> type = Some (PyStr t) ->
        xml_compatible url = true ->
        xml_compatible l = true ->
        xml_compatible t = true ->
        rss_entry (set_rss_enclosure None e) = Ok item0 ->
        exists item,
          rss_entry e' = Ok item
          /\ enclosure_elements item
             = [Element "enclosure" [("url", url); ("length", l); ("type", t)]
                        None []]).
Proof.
  simpl. split; [destruct e; reflexivity|]. split; [destruct e; reflexivity|].
  split; [reflexivity|].
  assert (Hstored : forall v, __rss_enclosure (set_rss_enclosure v e) = v)
    by (intros v; destruct e; reflexivity).
  split.
  - intros item Hitem.
    pose proof (enclosure_elements_entry _ _ Hitem) as Hel.
    apply rss_entry_ok in Hitem as (_ & enc & Henc & _).
    rewrite Henc in Hel. injection Hel as ->.
    apply enclosure_part_inv in Henc. rewrite Hstored in Henc.
    destruct Henc as (n & t & Hn & Ht & ->). simpl in Hn, Ht. eauto.
  - intros l t item0 -> -> Hu Hl Ht Hitem0.
    assert (Hpart : enclosure_part (set_rss_enclosure
               (Some {| enclosure_url := url;
                        enclosure_length := Some (PyStr l);
                        enclosure_type := Some (PyStr t) |}) e)
             = Ok [Element "enclosure"
                     [("url", url); ("length", l); ("type", t)] None []]).
    { unfold enclosure_part. rewrite Hstored. simpl.
      rewrite !utf8_ok by assumption. reflexivity. }
    destruct (Episode.rss_entry formatRFC2822 cdata_allowed (set_rss_enclosure
               (Some {| enclosure_url := url;
                        enclosure_length := Some (PyStr l);
                        enclosure_type := Some (PyStr t) |}) e))
      as [item|x] eqn:Hentry.
    + exists item. split; [reflexivity|].
      apply enclosure_elements_entry in Hentry. rewrite Hpart in Hentry.
      now injection Hentry.
    + exfalso. revert Hentry Hitem0. rewrite !rss_entry_set_enclosure, Hpart.
      destruct (required_missing e); [discriminate|].
      destruct (elements_checked cdata_allowed (title_part e ++ _));
        simpl; [|discriminate].
      destruct (enclosure_part (set_rss_enclosure None e));
        simpl; [|discriminate].
      destruct (elements_checked cdata_allowed (Episode.pubDate_part _ e ++ _));
        simpl; discriminate.
Qed.

(** ** Authors *)

Lemma author_record_lookup (name email : string) :
  author_record name email !! "email" = Some email
  /\ author_record name email !! "name" = Some name.
Proof.
  unfold author_record. split.
  - rewrite lookup_insert_ne by discriminate. apply lookup_insert_eq.
  - apply lookup_insert_eq.
Qed.

Lemma author_record_dom (name email : string) :
  dom (author_record name email) = ({[ "name"; "email" ]} : gset string).
Proof.
  unfold author_record. rewrite dom_insert_L, dom_singleton_L. set_solver.
Qed.

Lemma format_authors_records (l : list (string * string)) :
  format_authors (List.map (fun p => author_record p.1 p.2) l)
  = Ok (List.map author_text l).
Proof.
  induction l as [|[name email] l IH]; [reflexivity|].
  simpl. unfold format_author.
  destruct (author_record_lookup name email) as [-> ->].
  simpl. rewrite IH. reflexivity.
Qed.

Lemma forallb_map_true {A B} (P : B -> bool) (f : A -> B) (l : list A) :
  (forall a, P (f a) = true) -> forallb P (List.map f l) = true.
Proof.
  intros H. induction l as [|a l IH]; [reflexivity|].
  simpl. now rewrite H, IH.
Qed.

Lemma ensure_format_records (l : list (string * string)) :
  ensure_format (Several (List.map (fun p => author_record p.1 p.2) l))
                {[ "name"; "email" ]} {[ "email" ]}
  = Ok (List.map (fun p => author_record p.1 p.2) l).
Proof.
  unfold ensure_format.
  rewrite !forallb_map_true; [reflexivity| |];
    intros p; apply bool_decide_eq_true_2;
    rewrite author_record_dom; set_solver.
Qed.

(** C8.  For every list of (name, email) pairs, setting the authors from
    the records of these pairs and reading them back gives the texts
    "email (name)" in the order of the list: alone when [replace] is true,
    after the authors already stored when it is false.  The setting call
    returns the same list as the reading call. *)
Theorem author_round_trip (e : episode) (l : list (string * string)) :
  let records := Several (List.map (fun p => author_record p.1 p.2) l) in
  let texts := List.map author_text l in
  (let e' := fst (author e (Some records) true ∅) in
   author e (Some records) true ∅ = (e', Ok (Some texts))
   /\ author e' None false ∅ = (e', Ok (Some texts)))
  /\ (let e' := fst (author e (Some records) false ∅) in
      let all := default [] (__rss_author e) ++ texts in
      author e (Some records) false ∅ = (e', Ok (Some all))
      /\ author e' None false ∅ = (e', Ok (Some all))).
Proof.
  simpl. unfold author.
  rewrite ensure_format_records, format_authors_records. simpl.
  split; [destruct e; split; reflexivity|].
  destruct e as [[old|] ? ? ? ? ? ? ? ? ? ? ? ? ? ? ? ? ? ? ?];
    simpl; split; reflexivity.
Qed.

End EpisodeProperties.

(** ** Closed instances for episodes *)

(** C1 as stated fails: after [title("")] the title is set, and yet
    [rss_entry] raises its validation failure. *)
Lemma rss_entry_empty_title_counterexample :
  ~ (let e := Episode.run Standin.dateutil_parse [Episode.Title (Some "")] in
     is_value_error
       (Episode.rss_entry Standin.formatRFC2822 Standin.cdata_allowed e)
     = true
     <-> Episode.__rss_title e = None
         /\ Episode.__rss_description e = None
         /\ Episode.__rss_content e = None).
Proof.
  simpl. intros [H _]. destruct (H eq_refl) as [Ht _]. discriminate Ht.
Qed.

(** An episode with a title alone renders. *)
Lemma rss_entry_required_fields_witness :
  exists kids,
    Episode.rss_entry Standin.formatRFC2822 Standin.cdata_allowed
      (Episode.run Standin.dateutil_parse [Episode.Title (Some "Episode 1")])
    = Ok (Element "item" [] None kids).
Proof.
  apply (proj2 (proj2 (rss_entry_required_fields
                         Standin.formatRFC2822 Standin.cdata_allowed _))).
  - left. reflexivity.
  - reflexivity.
Defined.

(** A title with a control character is a true value, and lxml refuses
    it: the episode does not render. *)
Lemma rss_entry_control_character :
  Episode.rss_entry Standin.formatRFC2822 Standin.cdata_allowed
    (Episode.run Standin.dateutil_parse
       [Episode.Title (Some (String (ascii_of_nat 1) "x"))])
  = Raise xml_error.
Proof. reflexivity. Qed.

(** C2 as stated fails: with the description set to the empty text and a
    content set, both are set, and yet the item holds no [description]
    element with the description text followed by an [encoded] element. *)
Lemma rss_entry_empty_description_counterexample :
  ~ (let e := Episode.run Standin.dateutil_parse
                [Episode.Description (Some ""); Episode.Content (Some "body") None] in
     exists item d c,
       Episode.rss_entry Standin.formatRFC2822 Standin.cdata_allowed e = Ok item
       /\ Episode.__rss_description e = Some d
       /\ Episode.__rss_content e = Some c
       /\ Episode.description_elements item
          = [Element "description" [] (Some (Plain d)) [];
             Element (Episode.qname Episode.CONTENT_NS "encoded") []
               (Some (if bool_decide (Episode.content_type c = Some "CDATA")
                      then CDATA (Episode.content_content c)
                      else Plain (Episode.content_content c))) []]).
Proof.
  simpl. intros (item & d & c & Hitem & _ & _ & Hd).
  injection Hitem as <-. discriminate Hd.
Qed.

Lemma rss_entry_description_witness :
  let e := Episode.run Standin.dateutil_parse
             [Episode.Description (Some "synopsis");
              Episode.Content (Some "<p>body</p>") (Some "CDATA")] in
  exists item,
    Episode.rss_entry Standin.formatRFC2822 Standin.cdata_allowed e = Ok item
    /\ Episode.description_elements item
       = [Element "description" [] (Some (Plain "synopsis")) [];
          Element (Episode.qname Episode.CONTENT_NS "encoded") []
            (Some (CDATA "<p>body</p>")) []].
Proof.
  eexists. split; [reflexivity|].
  exact (proj1 (rss_entry_description
             Standin.formatRFC2822 Standin.cdata_allowed
                  (Episode.run Standin.dateutil_parse
                     [Episode.Description (Some "synopsis");
                      Episode.Content (Some "<p>body</p>") (Some "CDATA")])
                  _ eq_refl)
           "synopsis"
           {| Episode.content_content := "<p>body</p>";
              Episode.content_type := Some "CDATA" |}
           eq_refl ltac:(discriminate) eq_refl).
Defined.

(** C6 as stated fails: [enclosure] called with a url alone leaves an
    enclosure that is set while its length and type are absent. *)
Lemma enclosure_url_only_counterexample :
  ~ (let e := Episode.run Standin.dateutil_parse
                [Episode.Enclosure (Some "http://x.com/a.mp3") None None] in
     forall enc,
       Episode.__rss_enclosure e = Some enc ->
       is_Some (Episode.enclosure_length enc)
       /\ is_Some (Episode.enclosure_type enc)).
Proof.
  simpl. intros H. destruct (H _ eq_refl) as [[l Hl] _]. discriminate Hl.
Qed.

(** On that episode, given a title, [rss_entry] returns no item at all. *)
Lemma rss_entry_url_only_enclosure :
  Episode.rss_entry Standin.formatRFC2822 Standin.cdata_allowed
    (Episode.run Standin.dateutil_parse
       [Episode.Title (Some "Episode 1");
        Episode.Enclosure (Some "http://x.com/a.mp3") None None])
  = Raise (TypeError "Argument must be bytes or unicode, got 'NoneType'").
Proof. reflexivity. Qed.

(** With the length passed as an int, the size in bytes, lxml refuses
    the attribute as well. *)
Lemma rss_entry_int_length_enclosure :
  Episode.rss_entry Standin.formatRFC2822 Standin.cdata_allowed
    (Episode.run Standin.dateutil_parse
       [Episode.Title (Some "Episode 1");
        Episode.Enclosure (Some "http://x.com/a.mp3") (Some (PyInt 123))
                          (Some (PyStr "audio/mpeg"))])
  = Raise (TypeError "Argument must be bytes or unicode, got 'int'").
Proof. reflexivity. Qed.

Lemma enclosure_stores_arguments_witness :
  exists item,
    Episode.rss_entry Standin.formatRFC2822 Standin.cdata_allowed
      (Episode.run Standin.dateutil_parse
         [Episode.Title (Some "Episode 1");
          Episode.Enclosure (Some "http://x.com/a.mp3") (Some (PyStr "123"))
                            (Some (PyStr "audio/mpeg"))])
    = Ok item
    /\ Episode.enclosure_elements item
       = [Element "enclosure"
            [("url", "http://x.com/a.mp3"); ("length", "123");
             ("type", "audio/mpeg")] None []].
Proof.
  exact (proj2 (proj2 (proj2 (proj2
           (enclosure_stores_arguments
              Standin.formatRFC2822 Standin.cdata_allowed
              (Episode.run Standin.dateutil_parse
                 [Episode.Title (Some "Episode 1")])
              "http://x.com/a.mp3" (Some (PyStr "123"))
              (Some (PyStr "audio/mpeg"))))))
           "123" "audio/mpeg" _ eq_refl eq_refl eq_refl eq_refl eq_refl
           eq_refl).
Defined.

(** C9 as stated fails: [author], asked to replace the one author stored
    by a record without an email, raises a validation failure and leaves
    an empty author list behind. *)
Lemma author_failed_setter_counterexample :
  ~ (let e := Episode.run Standin.dateutil_parse
                [Episode.Author
                   (Some (Single (Episode.author_record "Ann" "ann@example.org")))
                   false ∅] in
     let call := Episode.author e (Some (Single {[ "name" := "Bob" ]})) true ∅ in
     is_value_error (snd call) = true -> fst call = e).
Proof.
  vm_compute. intros H. specialize (H eq_refl). discriminate H.
Qed.

(** The stand-in parser reads the two texts as the theorem assumes. *)
Lemma published_needs_timezone_witness :
  Episode.published Standin.dateutil_parse Episode.__init__
    (Some (Episode.PubStr "2020-01-01T00:00:00+00:00"))
  = (Episode.set_rss_pubDate (Some Episode.utc_2020) Episode.__init__,
     Ok (Some Episode.utc_2020))
  /\ Episode.published Standin.dateutil_parse Episode.__init__
       (Some (Episode.PubStr "2020-01-01T00:00:00"))
     = (Episode.__init__,
        Raise (ValueError "Datetime object has no timezone info")).
Proof.
  destruct (published_needs_timezone Standin.dateutil_parse Episode.__init__
              eq_refl eq_refl) as ([H1 _] & H2 & _).
  split; [exact H1 | exact H2].
Defined.

(** Two authors appended to one: the texts, in order. *)
Lemma author_round_trip_example :
  Episode.__rss_author
    (Episode.run Standin.dateutil_parse
       [Episode.Author (Some (Single (Episode.author_record "Ann" "ann@example.org")))
                       false ∅;
        Episode.Author
          (Some (Several [Episode.author_record "Bob" "bob@example.org";
                          Episode.author_record "Cy" "cy@example.org"]))
          false ∅])
  = Some ["ann@example.org (Ann)"; "bob@example.org (Bob)"; "cy@example.org (Cy)"].
Proof. vm_compute. reflexivity. Qed.

(** * Properties of [Media] *)

(** ** The size setter *)

Lemma str_negative (p : positive) :
  exists r, py_str (PyInt (Zneg p)) = String "-" r.
Proof. eexists. reflexivity. Qed.

Lemma rstrip_keeps_head (chars : string) (c : ascii) (s : string) :
  PyStr.mem c chars = false ->
  exists r, PyStr.rstrip chars (String c s) = String c r.
Proof.
  intros H. simpl. destruct (PyStr.rstrip chars s); rewrite ?H; eauto.
Qed.

Lemma units_no_minus (r : string) : Media.units !! String "-" r = None.
Proof.
  destruct (Media.units !! String "-" r) as [z|] eqn:E; [|reflexivity].
  apply elem_of_list_to_map_2 in E.
  repeat (apply elem_of_cons in E as [E|E]; [discriminate E|]).
  now apply elem_of_nil in E.
Qed.

Lemma normalised_minus (r : string) :
  exists r', PyStr.remove_spaces (PyStr.strip (PyStr.lower (String "-" r)))
             = String "-" r'.
Proof.
  change (PyStr.lower (String "-" r)) with (String "-" (PyStr.lower r)).
  unfold PyStr.strip.
  destruct (rstrip_keeps_head PyStr.whitespace "-" (PyStr.lower r) eq_refl)
    as [r1 ->].
  eexists. reflexivity.
Qed.

(** A negative int has no unit the table knows. *)
Lemma str_to_bytes_negative (p : positive) :
  exists x, Media._str_to_bytes (PyInt (Zneg p)) = Raise x.
Proof.
  unfold Media._str_to_bytes.
  destruct (str_negative p) as [r ->].
  destruct (normalised_minus r) as [r1 ->].
  destruct (PyNum.float_of_string _); [|eauto].
  change (PyStr.lstrip "0123456789." (String "-" r1)) with (String "-" r1).
  rewrite units_no_minus. eauto.
Qed.

Lemma size_setter_rec_int (self : Media.media) (n : Z) :
  exists r, forall k,
    Media.size_setter_rec (S k) self (Some (PyInt n)) = Some r.
Proof.
  simpl. unfold Media.store_size.
  destruct (n <? 0)%Z eqn:Hn.
  - simpl. destruct n as [|p|p]; try discriminate Hn.
    destruct (str_to_bytes_negative p) as [x ->]. eauto.
  - simpl. destruct (bool_decide _); simpl; eauto.
Qed.

(** The recursion of the size setter ends within two levels: more [fuel]
    changes nothing, and the result is never "out of fuel". *)
Lemma size_setter_rec_fuel (k : nat) (self : Media.media) (size : option pyval) :
  Media.size_setter_rec (2 + k) self size = Some (Media.size_setter self size).
Proof.
  unfold Media.size_setter.
  change (2 + k) with (S (S k)). change 2 with (S 1).
  remember (S k) as k1 eqn:Hk1. remember 1 as k0 eqn:Hk0.
  destruct size as [v|]; simpl.
  - destruct (py_int v) as [n|[m|m|m|m|m]] eqn:Hv; try reflexivity.
    + unfold Media.store_size. destruct (n <? 0)%Z eqn:Hn.
      * simpl. destruct (Media._str_to_bytes (PyInt n)) as [n'|x]; [|reflexivity].
        destruct (size_setter_rec_int self n') as [r Hr].
        subst k1 k0. now rewrite !Hr.
      * simpl. destruct (bool_decide _); reflexivity.
    + destruct (Media._str_to_bytes v) as [n|x]; [|reflexivity].
      destruct (size_setter_rec_int self n) as [r Hr].
      subst k1 k0. now rewrite !Hr.
  - destruct (size_setter_rec_int self 0) as [r Hr].
    subst k1 k0. now rewrite !Hr.
Qed.

Lemma size_setter_int (self : Media.media) (n : Z) :
  (0 <= n)%Z ->
  Media.size_setter self (Some (PyInt n))
  = (if bool_decide (n = 0%Z) then [Media.size_zero_warning] else [],
     Ok (Media.set_size (Some n) self)).
Proof.
  intros Hn. unfold Media.size_setter. simpl. unfold Media.store_size.
  destruct (Z.ltb_spec n 0) as [?|_]; [lia|]. simpl.
  destruct (decide (n = 0%Z)) as [->|Hne].
  - reflexivity.
  - rewrite !bool_decide_eq_false_2 by congruence. reflexivity.
Qed.

(** C5.  The size setter turns "2MB" into 2000000 and "2MiB" into 2097152,
    without a warning.  For "2xb" it raises a validation failure, but the
    one of the number conversion: stripping the letters of the known units
    from the right leaves "2x", which is no number, and the lookup of the
    unit "xb" with its message is never reached. *)
Theorem size_setter_units (self : Media.media) :
  Media.size_setter self (Some (PyStr "2MB"))
  = ([], Ok (Media.set_size (Some 2000000%Z) self))
  /\ Media.size_setter self (Some (PyStr "2MiB"))
     = ([], Ok (Media.set_size (Some 2097152%Z) self))
  /\ Media.size_setter self (Some (PyStr "2xb"))
     = ([], Raise (ValueError "could not convert string to float: '2x'"))
  /\ Media.size_setter self (Some (PyStr "2xb"))
     <> ([], Raise (ValueError "The unit xb was not recognized.")).
Proof.
  repeat split; try (vm_compute; reflexivity).
  vm_compute. discriminate.
Qed.

(** ** Construction, the URL and the type *)

Section MediaProperties.

Import Media.

Variable urlparse : string -> parse_result.

Local Abbreviation url_setter := (Media.url_setter urlparse).
Local Abbreviation get_type := (Media.get_type urlparse).
Local Abbreviation Media := (Media.__init__ urlparse).

Local Abbreviation extension := (Media.extension urlparse).

Lemma url_setter_stores (self : media) (url : string) :
  url <> "" ->
  exists w,
    url_setter self url = (w, Ok (set_url (Some url) self))
    /\ (is_Some (file_types !! PyStr.lower (extension url)) ->
        scheme (urlparse url) ∈ ["http"; "https"] -> w = [])
    /\ (file_types !! PyStr.lower (extension url) = None
        \/ scheme (urlparse url) ∉ ["http"; "https"] ->
        exists msg, NotSupportedByItunesWarning msg ∈ w).
Proof.
  intros Hurl. unfold Media.url_setter, Media.extension. cbv zeta.
  destruct (String.eqb_spec url "") as [?|_]; [contradiction|].
  destruct (bool_decide (is_Some _)) eqn:Hext;
    destruct (bool_decide (_ ∈ _)) eqn:Hs;
    [apply bool_decide_eq_true in Hext | apply bool_decide_eq_true in Hext
    |apply bool_decide_eq_false in Hext | apply bool_decide_eq_false in Hext];
    [apply bool_decide_eq_true in Hs | apply bool_decide_eq_false in Hs
    |apply bool_decide_eq_true in Hs | apply bool_decide_eq_false in Hs];
    simpl; eexists; (split; [reflexivity|]); split;
    try (intros; reflexivity); try (intros; contradiction).
  - intros [H|H]; [|contradiction]. destruct Hext as [x Hx]. congruence.
  - intros _. eexists. apply list_elem_of_here.
  - intros _. eexists. apply list_elem_of_here.
  - intros _. eexists. apply list_elem_of_here.
Qed.

Lemma get_type_lookup (url : string) :
  get_type url = match file_types !! extension url with
                 | Some t => Ok t
                 | None => Raise (not_recognized (extension url))
                 end.
Proof. reflexivity. Qed.

(** The keys of the table are in lower case, and its values are as the
    type setter would store them. *)
Lemma file_types_normal (ext mime : string) :
  file_types !! ext = Some mime ->
  PyStr.lower ext = ext /\ PyStr.lower (PyStr.strip mime) = mime
  /\ mime <> "" /\ mime ∈ (map_to_list file_types).*2.
Proof.
  intros H.
  assert (Hin : mime ∈ (map_to_list file_types).*2).
  { apply list_elem_of_fmap. exists (ext, mime). split; [reflexivity|].
    now apply elem_of_map_to_list. }
  apply elem_of_list_to_map_2 in H.
  repeat (apply elem_of_cons in H as [H|H];
          [injection H as -> ->; repeat split; (assumption || discriminate)|]).
  now apply elem_of_nil in H.
Qed.

Lemma type_setter_stores (self : media) (t : string) :
  t <> "" ->
  exists w, type_setter self (Some t)
            = (w, Ok (set_type (Some (PyStr.lower (PyStr.strip t))) self)).
Proof.
  intros Ht. unfold type_setter. destruct t; [contradiction|].
  destruct (bool_decide _); simpl; eauto.
Qed.

(** C4, amended.  For a non-empty URL whose extension is outside the table
    or whose scheme is neither http nor https, and for a size that is a
    non-negative int (0 is the default), the constructor issues an advisory
    warning.  With a non-empty type, or with no type and an extension that,
    as written, is in the table, it then completes with the URL stored;
    with no type and an extension that is not in the table, it raises a
    validation failure instead. *)
Theorem media_unsupported_url (url : string) (n : Z) (type : option string) :
  url <> "" ->
  file_types !! PyStr.lower (extension url) = None
  \/ scheme (urlparse url) ∉ ["http"; "https"] ->
  (0 <= n)%Z ->
  (forall t, type = Some t -> t <> "" ->
     exists w,
       Media url (Some (PyInt n)) type
       = (w, Ok {| _url := Some url; _size := Some n;
                   _type := Some (PyStr.lower (PyStr.strip t)) |})
       /\ exists msg, NotSupportedByItunesWarning msg ∈ w)
  /\ (forall mime,
        PyStr.truthy type = false -> file_types !! extension url = Some mime ->
        exists w,
          Media url (Some (PyInt n)) type
          = (w, Ok {| _url := Some url; _size := Some n; _type := Some mime |})
          /\ exists msg, NotSupportedByItunesWarning msg ∈ w)
  /\ (PyStr.truthy type = false -> file_types !! extension url = None ->
      exists w,
        Media url (Some (PyInt n)) type = (w, Raise (not_recognized (extension url)))
        /\ exists msg, NotSupportedByItunesWarning msg ∈ w).
Proof.
  intros Hurl Hbad Hn. unfold Media.__init__.
  destruct (url_setter_stores {| _url := None; _size := None; _type := None |}
              url Hurl) as (w1 & -> & _ & Hw1).
  destruct (Hw1 Hbad) as [msg Hmsg].
  cbn [mbind W_bind]. rewrite size_setter_int by assumption.
  repeat split.
  - intros t -> Ht.
    assert (Htrue : PyStr.truthy (Some t) = true) by (destruct t; [contradiction|reflexivity]).
    rewrite Htrue.
    destruct (type_setter_stores
                (set_size (Some n) (set_url (Some url)
                   {| _url := None; _size := None; _type := None |})) t Ht)
      as [w3 Hw3].
    cbn [mbind W_bind mret W_ret]. rewrite Hw3.
    eexists. split; [reflexivity|]. exists msg. apply elem_of_app. left. exact Hmsg.
  - intros mime Hfalse Hmime. rewrite Hfalse, get_type_lookup, Hmime.
    destruct (file_types_normal _ _ Hmime) as (_ & Hnorm & Hne & Hin).
    cbn [mbind W_bind fmap result_fmap lift].
    unfold type_setter. destruct mime as [|c mime]; [contradiction|].
    rewrite Hnorm, bool_decide_eq_true_2 by assumption.
    eexists. split; [reflexivity|]. exists msg. apply elem_of_app. left. exact Hmsg.
  - intros Hfalse Hnone. rewrite Hfalse, get_type_lookup, Hnone.
    eexists. split; [reflexivity|]. exists msg. apply elem_of_app. left. exact Hmsg.
Qed.

(** C10.  For a non-empty http(s) URL whose extension is an upper-case
    variant of a supported one (absent from the table as written, present
    once put in lower case), the url setter issues no warning, and yet the
    constructor called without a type never completes: it raises a
    validation failure, the one of [get_type] whenever the size is accepted.
    The two lookups differ in the case conversion alone. *)
Theorem media_extension_case (url : string) :
  url <> "" ->
  scheme (urlparse url) ∈ ["http"; "https"] ->
  is_Some (file_types !! PyStr.lower (extension url)) ->
  file_types !! extension url = None ->
  (forall self, url_setter self url = ([], Ok (set_url (Some url) self)))
  /\ get_type url = Raise (not_recognized (extension url))
  /\ (forall size, exists x, snd (Media url size None) = Raise x)
  /\ (forall n, (0 <= n)%Z ->
        snd (Media url (Some (PyInt n)) None)
        = Raise (not_recognized (extension url))).
Proof.
  intros Hurl Hs Hlow Hraw.
  assert (Hset : forall self, url_setter self url = ([], Ok (set_url (Some url) self))).
  { intros self. destruct (url_setter_stores self url Hurl) as (w & -> & Hw & _).
    now rewrite (Hw Hlow Hs). }
  assert (Hget : get_type url = Raise (not_recognized (extension url)))
    by now rewrite get_type_lookup, Hraw.
  repeat split; try assumption.
  - intros size. unfold Media.__init__. rewrite Hset. cbn [mbind W_bind].
    destruct (size_setter _ size) as [w2 [self2|x]]; [|eauto].
    cbn [PyStr.truthy]. rewrite Hget. eauto.
  - intros n Hn. unfold Media.__init__. rewrite Hset. cbn [mbind W_bind].
    rewrite size_setter_int by assumption.
    cbn [PyStr.truthy]. rewrite Hget. reflexivity.
Qed.

End MediaProperties.

(** ** Closed instances for media *)

(** C4 as stated fails: for an http URL ending in .ogg and no type, the
    constructor warns and then raises; nothing is constructed. *)
Lemma media_ogg_counterexample :
  ~ (exists w m,
       Media.__init__ Standin.urlparse "http://x.com/a.ogg" (Some (PyInt 0)) None
       = (w, Ok m)
       /\ Media._url m = Some "http://x.com/a.ogg").
Proof.
  intros (w & m & H & _). vm_compute in H. discriminate H.
Qed.

Lemma media_unsupported_url_witness :
  exists w,
    Media.__init__ Standin.urlparse "ftp://x.com/a.ogg" (Some (PyInt 0))
                   (Some "audio/ogg")
    = (w, Ok {| Media._url := Some "ftp://x.com/a.ogg";
                Media._size := Some 0%Z;
                Media._type := Some "audio/ogg" |})
    /\ exists msg, Media.NotSupportedByItunesWarning msg ∈ w.
Proof.
  refine (proj1 (media_unsupported_url Standin.urlparse "ftp://x.com/a.ogg" 0
                   (Some "audio/ogg") _ _ _) "audio/ogg" eq_refl _).
  - discriminate.
  - left. reflexivity.
  - lia.
  - discriminate.
Defined.

Lemma media_extension_case_witness :
  Media.url_setter Standin.urlparse
    {| Media._url := None; Media._size := None; Media._type := None |}
    "http://x.com/a.MP3"
  = ([], Ok {| Media._url := Some "http://x.com/a.MP3"; Media._size := None;
               Media._type := None |})
  /\ snd (Media.__init__ Standin.urlparse "http://x.com/a.MP3" (Some (PyInt 0)) None)
     = Raise (Media.not_recognized "MP3").
Proof.
  assert (H : "http://x.com/a.MP3" <> "") by discriminate.
  assert (Hs : Media.scheme (Standin.urlparse "http://x.com/a.MP3")
               ∈ ["http"; "https"]) by apply list_elem_of_here.
  assert (Hl : is_Some (Media.file_types
                 !! PyStr.lower (Media.extension Standin.urlparse "http://x.com/a.MP3")))
    by (exists "audio/mpeg"; reflexivity).
  destruct (media_extension_case Standin.urlparse "http://x.com/a.MP3" H Hs Hl eq_refl)
    as (H1 & _ & _ & H4).
  split; [apply H1 | apply H4; lia].
Defined.

(** * Further properties of [BaseEpisode] *)

Section EpisodeRendering.

Import Episode.

Variable dateutil_parse : string -> result datetime.
Variable formatRFC2822 : datetime -> string.
Variable cdata_allowed : string -> bool.

Local Abbreviation rss_entry := (Episode.rss_entry formatRFC2822 cdata_allowed).
Local Abbreviation published := (Episode.published dateutil_parse).
Local Abbreviation pubDate_part := (Episode.pubDate_part formatRFC2822).

(** What the enclosure block adds when it does not raise. *)
Lemma children_entry (e : episode) (item : element) :
  rss_entry e = Ok item ->
  exists enc,
    enclosure_part e = Ok enc
    /\ children item
       = title_part e ++ link_part e ++ description_part e ++ author_part e
         ++ guid_part e ++ category_part e ++ comments_part e ++ enc
         ++ pubDate_part e ++ itunes_part e.
Proof.
  intros H. apply rss_entry_ok in H as (_ & enc & Henc & ->). eauto.
Qed.

Lemma filter_if_true_all (P : element -> bool) (v : option string)
    (f : string -> element) :
  (forall s, P (f s) = true) -> List.filter P (if_true v f) = if_true v f.
Proof.
  intros H. unfold if_true.
  destruct v as [s|]; [|reflexivity].
  destruct (PyStr.truthy (Some s)); [|reflexivity].
  simpl. now rewrite H.
Qed.

Lemma filter_map_all {A} (P : element -> bool) (f : A -> element) (l : list A) :
  (forall a, P (f a) = true) -> List.filter P (List.map f l) = List.map f l.
Proof.
  intros H. induction l as [|a l IH]; [reflexivity|].
  simpl. now rewrite H, IH.
Qed.

Lemma filter_description_part (P : element -> bool) (e : episode) :
  (forall a t, P (Element "description" a t []) = false) ->
  (forall a t, P (Element (qname CONTENT_NS "encoded") a t []) = false) ->
  List.filter P (description_part e) = [].
Proof.
  intros H1 H2. unfold description_part, leaf, encoded.
  destruct (__rss_description e) as [d|], (__rss_content e) as [c|];
    try destruct (PyStr.truthy (Some d)); simpl; now rewrite ?H1, ?H2.
Qed.

Lemma filter_pubDate_part (P : element -> bool) (e : episode) :
  (forall a t, P (Element "pubDate" a t []) = false) ->
  List.filter P (pubDate_part e) = [].
Proof.
  intros H. unfold Episode.pubDate_part, leaf.
  destruct (__rss_pubDate e); simpl; now rewrite ?H.
Qed.

(** The elements of one tag come from the blocks before the iTunes block
    or from the iTunes block. *)
Lemma named_entry (name : string) (e : episode) (item : element) :
  rss_entry e = Ok item ->
  exists enc,
    enclosure_part e = Ok enc
    /\ Render.named name item
       = List.filter (fun x => String.eqb (tag x) name)
           (title_part e ++ link_part e ++ description_part e ++ author_part e
            ++ guid_part e ++ category_part e ++ comments_part e ++ enc
            ++ pubDate_part e)
         ++ List.filter (fun x => String.eqb (tag x) name) (itunes_part e).
Proof.
  intros H. destruct (children_entry e item H) as (enc & Henc & Hkids).
  exists enc. split; [assumption|].
  unfold Render.named. rewrite Hkids, !List.filter_app, <- !app_assoc.
  reflexivity.
Qed.

(** An iTunes tag selects nothing among the plain RSS blocks. *)
Lemma filter_rss_blocks (name : string) (e : episode) enc :
  enclosure_part e = Ok enc ->
  List.filter (fun x => String.eqb (tag x) (qname ITUNES_NS name))
    (title_part e ++ link_part e ++ description_part e ++ author_part e
     ++ guid_part e ++ category_part e ++ comments_part e ++ enc
     ++ pubDate_part e) = [].
Proof.
  intros Henc. rewrite !List.filter_app.
  unfold title_part, link_part, guid_part, comments_part, author_part,
    category_part.
  rewrite !filter_if_true by reflexivity.
  rewrite !filter_map_none by reflexivity.
  rewrite filter_description_part by reflexivity.
  rewrite (filter_enclosure_part _ e enc) by (reflexivity || assumption).
  rewrite filter_pubDate_part by reflexivity.
  reflexivity.
Qed.

Lemma filter_itunes_blocks (name : string) (e : episode) :
  (forall n, String.eqb (qname ITUNES_NS n) name = false) ->
  List.filter (fun x => String.eqb (tag x) name) (itunes_part e) = [].
Proof.
  intros H. apply filter_itunes_part. intros n a t. apply H.
Qed.

(** ** The iTunes elements *)

Lemma order_elements (e : episode) (item : element) :
  rss_entry e = Ok item ->
  Render.named (qname ITUNES_NS "order") item
  = match __itunes_order e with
    | Some n =>
        if (0 <=? n)%Z
        then [leaf (qname ITUNES_NS "order") (PyStr.of_Z n)] else []
    | None => []
    end.
Proof.
  intros Hitem.
  destruct (named_entry (qname ITUNES_NS "order") e item Hitem)
    as (enc & Henc & ->).
  rewrite (filter_rss_blocks "order" e enc Henc). simpl.
  unfold itunes_part.
  rewrite !List.filter_app, !filter_if_true by reflexivity.
  destruct (__itunes_block e), (__itunes_explicit e) as [x|],
    (__itunes_is_closed_captioned e), (__itunes_order e) as [n|];
    try destruct (bool_decide (x ∈ _)); try destruct (0 <=? n)%Z; reflexivity.
Qed.

Lemma explicit_elements (e : episode) (item : element) :
  rss_entry e = Ok item ->
  Render.named (qname ITUNES_NS "explicit") item
  = match __itunes_explicit e with
    | Some x =>
        if bool_decide (x ∈ ["yes"; "no"; "clean"])
        then [leaf (qname ITUNES_NS "explicit") x] else []
    | None => []
    end.
Proof.
  intros Hitem.
  destruct (named_entry (qname ITUNES_NS "explicit") e item Hitem)
    as (enc & Henc & ->).
  rewrite (filter_rss_blocks "explicit" e enc Henc). simpl.
  unfold itunes_part.
  rewrite !List.filter_app, !filter_if_true by reflexivity.
  destruct (__itunes_block e), (__itunes_explicit e) as [x|],
    (__itunes_is_closed_captioned e), (__itunes_order e) as [n|];
    try destruct (bool_decide (x ∈ _)); try destruct (0 <=? n)%Z; reflexivity.
Qed.

Lemma flag_elements (e : episode) (item : element) :
  rss_entry e = Ok item ->
  Render.named (qname ITUNES_NS "block") item
  = match __itunes_block e with
    | Some b => [leaf (qname ITUNES_NS "block") (yes_no b)]
    | None => []
    end
  /\ Render.named (qname ITUNES_NS "isClosedCaptioned") item
     = match __itunes_is_closed_captioned e with
       | Some b => [leaf (qname ITUNES_NS "isClosedCaptioned") (yes_no b)]
       | None => []
       end.
Proof.
  intros Hitem. split.
  - destruct (named_entry (qname ITUNES_NS "block") e item Hitem)
      as (enc & Henc & ->).
    rewrite (filter_rss_blocks "block" e enc Henc). simpl.
    unfold itunes_part.
    rewrite !List.filter_app, !filter_if_true by reflexivity.
    destruct (__itunes_block e), (__itunes_explicit e) as [x|],
      (__itunes_is_closed_captioned e), (__itunes_order e) as [n|];
      try destruct (bool_decide (x ∈ _)); try destruct (0 <=? n)%Z; reflexivity.
  - destruct (named_entry (qname ITUNES_NS "isClosedCaptioned") e item Hitem)
      as (enc & Henc & ->).
    rewrite (filter_rss_blocks "isClosedCaptioned" e enc Henc). simpl.
    unfold itunes_part.
    rewrite !List.filter_app, !filter_if_true by reflexivity.
    destruct (__itunes_block e), (__itunes_explicit e) as [x|],
      (__itunes_is_closed_captioned e), (__itunes_order e) as [n|];
      try destruct (bool_decide (x ∈ _)); try destruct (0 <=? n)%Z; reflexivity.
Qed.

(** X1.  [itunes_order] stores any int, negative ones too; the item then
    holds one [order] element with the decimal text of the int when it is
    0 or more, and no [order] element when it is negative. *)
Theorem itunes_order_rendered (e : episode) (n : Z) (item : element) :
  rss_entry (fst (itunes_order e (Some (PyInt n)))) = Ok item ->
  itunes_order e (Some (PyInt n))
  = (set_itunes_order (Some n) e, Ok (Some n))
  /\ Render.named (qname ITUNES_NS "order") item
     = if (0 <=? n)%Z
       then [Element (qname ITUNES_NS "order") [] (Some (Plain (PyStr.of_Z n))) []]
       else [].
Proof.
  intros Hitem. split; [destruct e; reflexivity|].
  rewrite (order_elements _ item Hitem). destruct e; reflexivity.
Qed.

(** X2.  [itunes_explicit] accepts the four values "", "yes", "no" and
    "clean" and stores them as they are; the item holds an [explicit]
    element with the stored text for the last three and none for the
    empty text. *)
Theorem itunes_explicit_rendered (e : episode) (v : string) (item : element) :
  v ∈ [""; "yes"; "no"; "clean"] ->
  rss_entry (fst (itunes_explicit e (Some v))) = Ok item ->
  itunes_explicit e (Some v) = (set_itunes_explicit (Some v) e, Ok (Some v))
  /\ Render.named (qname ITUNES_NS "explicit") item
     = if String.eqb v ""
       then []
       else [Element (qname ITUNES_NS "explicit") [] (Some (Plain v)) []].
Proof.
  intros Hv Hitem.
  assert (Hset : itunes_explicit e (Some v)
                 = (set_itunes_explicit (Some v) e, Ok (Some v))).
  { unfold itunes_explicit. rewrite bool_decide_eq_true_2 by assumption.
    destruct e; reflexivity. }
  split; [assumption|].
  rewrite (explicit_elements _ item Hitem), Hset.
  assert (Hget : __itunes_explicit (set_itunes_explicit (Some v) e) = Some v)
    by (destruct e; reflexivity).
  simpl fst. rewrite Hget.
  repeat (apply elem_of_cons in Hv as [->|Hv]; [reflexivity|]).
  now apply elem_of_nil in Hv.
Qed.

(** X3.  [itunes_is_closed_captioned] stores true for the text "yes", the
    boolean True and the int 1, and false for every other value, the text
    "Yes" or "true" included; once it was called with a value, the item
    always holds an [isClosedCaptioned] element, "yes" or "no".
    [itunes_block] stores its boolean, rendered the same way. *)
Theorem itunes_flags_rendered (e : episode) :
  (forall v item,
      rss_entry (fst (itunes_is_closed_captioned e (Some v))) = Ok item ->
      Render.named (qname ITUNES_NS "isClosedCaptioned") item
      = [Element (qname ITUNES_NS "isClosedCaptioned") []
           (Some (Plain (if in_yes_True v then "yes" else "no"))) []])
  /\ (forall v, in_yes_True v = true
                <-> v = PyStr "yes" \/ v = PyBool true \/ v = PyInt 1)
  /\ (forall b item,
        rss_entry (fst (itunes_block e (Some b))) = Ok item ->
        Render.named (qname ITUNES_NS "block") item
        = [Element (qname ITUNES_NS "block") []
             (Some (Plain (if b then "yes" else "no"))) []]).
Proof.
  split; [|split].
  - intros v item Hitem. rewrite (proj2 (flag_elements _ item Hitem)).
    destruct e; reflexivity.
  - intros v. split.
    + destruct v as [s|n|[]]; simpl; intros H; auto; try discriminate.
      * apply String.eqb_eq in H. subst. auto.
      * apply Z.eqb_eq in H. subst. auto.
    + intros [->|[->| ->]]; reflexivity.
  - intros b item Hitem. rewrite (proj1 (flag_elements _ item Hitem)).
    destruct e, b; reflexivity.
Qed.

(** ** Authors and categories in the item *)

Lemma plain_elements (name : string) (e : episode) (item : element) :
  (forall n, String.eqb (qname ITUNES_NS n) name = false) ->
  rss_entry e = Ok item ->
  exists enc,
    enclosure_part e = Ok enc
    /\ Render.named name item
       = List.filter (fun x => String.eqb (tag x) name)
           (title_part e ++ link_part e ++ description_part e ++ author_part e
            ++ guid_part e ++ category_part e ++ comments_part e ++ enc
            ++ pubDate_part e).
Proof.
  intros Hname Hitem.
  destruct (named_entry name e item Hitem) as (enc & Henc & ->).
  exists enc. split; [assumption|].
  rewrite filter_itunes_blocks by (intros; apply Hname).
  apply app_nil_r.
Qed.

Lemma category_elements (e : episode) (item : element) :
  rss_entry e = Ok item ->
  Render.named "category" item
  = List.map category_element (default [] (__rss_category e)).
Proof.
  intros Hitem.
  destruct (plain_elements "category" e item (fun _ => eq_refl) Hitem)
    as (enc & Henc & ->).
  rewrite !List.filter_app.
  unfold title_part, link_part, guid_part, comments_part, author_part,
    category_part.
  rewrite !filter_if_true by reflexivity.
  rewrite filter_map_none by reflexivity.
  rewrite filter_map_all by reflexivity.
  rewrite filter_description_part by reflexivity.
  rewrite (filter_enclosure_part _ e enc) by (reflexivity || assumption).
  rewrite filter_pubDate_part by reflexivity.
  simpl. apply app_nil_r.
Qed.

(** X4.  The item holds one [author] element per stored author text, in
    the stored order, and one [guid] element, marked as no permalink, for
    a non-empty guid.  The [author] of the iTunes namespace is not among
    them. *)
Theorem authors_and_guid_rendered (e : episode) (item : element) :
  rss_entry e = Ok item ->
  Render.named "author" item
  = List.map (fun a => Element "author" [] (Some (Plain a)) [])
             (default [] (__rss_author e))
  /\ Render.named "guid" item
     = match __rss_guid e with
       | Some (String c g) =>
           [Element "guid" [("isPermaLink", "false")]
                    (Some (Plain (String c g))) []]
       | _ => []
       end.
Proof.
  intros Hitem. split.
  - destruct (plain_elements "author" e item (fun _ => eq_refl) Hitem)
      as (enc & Henc & ->).
    rewrite !List.filter_app.
    unfold title_part, link_part, guid_part, comments_part, author_part,
      category_part.
    rewrite !filter_if_true by reflexivity.
    rewrite filter_map_all by reflexivity.
    rewrite filter_map_none by reflexivity.
    rewrite filter_description_part by reflexivity.
    rewrite (filter_enclosure_part _ e enc) by (reflexivity || assumption).
    rewrite filter_pubDate_part by reflexivity.
    simpl. apply app_nil_r.
  - destruct (plain_elements "guid" e item (fun _ => eq_refl) Hitem)
      as (enc & Henc & ->).
    rewrite !List.filter_app.
    unfold title_part, link_part, guid_part, comments_part, author_part,
      category_part.
    rewrite (filter_if_true_all _ (__rss_guid e)) by reflexivity.
    rewrite !filter_if_true by reflexivity.
    rewrite !filter_map_none by reflexivity.
    rewrite filter_description_part by reflexivity.
    rewrite (filter_enclosure_part _ e enc) by (reflexivity || assumption).
    rewrite filter_pubDate_part by reflexivity.
    simpl. rewrite app_nil_r.
    destruct (__rss_guid e) as [[|c g]|]; reflexivity.
Qed.

(** ** Image, duration and publication date in the item *)

Lemma image_duration_elements (e : episode) (item : element) :
  rss_entry e = Ok item ->
  Render.named (qname ITUNES_NS "image") item
  = if_true (__itunes_image e)
      (fun i => Element (qname ITUNES_NS "image") [("href", i)] None [])
  /\ Render.named (qname ITUNES_NS "duration") item
     = if_true (__itunes_duration e) (leaf (qname ITUNES_NS "duration")).
Proof.
  intros Hitem. split.
  - destruct (named_entry (qname ITUNES_NS "image") e item Hitem)
      as (enc & Henc & ->).
    rewrite (filter_rss_blocks "image" e enc Henc). simpl.
    unfold itunes_part.
    rewrite !List.filter_app.
    rewrite (filter_if_true_all _ (__itunes_image e)) by reflexivity.
    rewrite !filter_if_true by reflexivity.
    destruct (__itunes_block e), (__itunes_explicit e) as [x|],
      (__itunes_is_closed_captioned e), (__itunes_order e) as [n|];
      try destruct (bool_decide (x ∈ _)); try destruct (0 <=? n)%Z;
      simpl; now rewrite app_nil_r.
  - destruct (named_entry (qname ITUNES_NS "duration") e item Hitem)
      as (enc & Henc & ->).
    rewrite (filter_rss_blocks "duration" e enc Henc). simpl.
    unfold itunes_part.
    rewrite !List.filter_app.
    rewrite (filter_if_true_all _ (__itunes_duration e)) by reflexivity.
    rewrite !filter_if_true by reflexivity.
    destruct (__itunes_block e), (__itunes_explicit e) as [x|],
      (__itunes_is_closed_captioned e), (__itunes_order e) as [n|];
      try destruct (bool_decide (x ∈ _)); try destruct (0 <=? n)%Z;
      simpl; now rewrite app_nil_r.
Qed.

Lemma endswith_nonempty (suffix s : string) :
  suffix <> "" -> PyStr.endswith suffix s = true -> s <> "".
Proof.
  intros Hsuffix H ->. unfold PyStr.endswith in H.
  destruct suffix; [contradiction|]. discriminate H.
Qed.

(** X19.  The extension of an image is tested on the name in lower case,
    and the name is stored as given: for a name that ends in .jpg, .jpeg
    or .png in any case, [itunes_image] stores the name unchanged, and the
    item holds one iTunes [image] element whose [href] is that name and
    which has no text. *)
Theorem itunes_image_rendered (e : episode) (image : string) (item : element) :
  PyStr.endswith_any [".jpg"; ".jpeg"; ".png"] (PyStr.lower image) = true ->
  rss_entry (fst (itunes_image e (Some image))) = Ok item ->
  itunes_image e (Some image) = (set_itunes_image (Some image) e, Ok (Some image))
  /\ Render.named (qname ITUNES_NS "image") item
     = [Element (qname ITUNES_NS "image") [("href", image)] None []].
Proof.
  intros Hext Hitem.
  assert (Hset : itunes_image e (Some image)
                 = (set_itunes_image (Some image) e, Ok (Some image))).
  { unfold itunes_image. rewrite Hext. destruct e; reflexivity. }
  split; [assumption|].
  rewrite (proj1 (image_duration_elements _ item Hitem)), Hset.
  assert (Hget : __itunes_image (set_itunes_image (Some image) e) = Some image)
    by (destruct e; reflexivity).
  simpl fst. rewrite Hget.
  assert (Hne : image <> "").
  { intros ->. discriminate Hext. }
  destruct image; [contradiction|reflexivity].
Qed.

(** X20.  [itunes_duration] checks nothing: whatever the value, of a
    valid form or not, its text is stored, and the item holds one iTunes
    [duration] element with that text, unless the text is empty. *)
Theorem itunes_duration_unchecked (e : episode) (v : pyval) (item : element) :
  rss_entry (fst (itunes_duration e (Some v))) = Ok item ->
  fst (itunes_duration e (Some v)) = set_itunes_duration (Some (py_str v)) e
  /\ Render.named (qname ITUNES_NS "duration") item
     = match py_str v with
       | EmptyString => []
       | d => [Element (qname ITUNES_NS "duration") [] (Some (Plain d)) []]
       end.
Proof.
  intros Hitem. split; [reflexivity|].
  rewrite (proj2 (image_duration_elements _ item Hitem)).
  change (fst (itunes_duration e (Some v)))
    with (set_itunes_duration (Some (py_str v)) e).
  assert (Hget : __itunes_duration (set_itunes_duration (Some (py_str v)) e)
                 = Some (py_str v)) by (destruct e; reflexivity).
  rewrite Hget. destruct (py_str v); reflexivity.
Qed.

(** X21.  A datetime with an offset given to [published], or to its other
    name [pubdate], is stored, and the item holds one [pubDate] element
    whose text is the RFC 2822 form of that datetime. *)
Theorem published_rendered (e : episode) (d : datetime) (item : element) :
  is_Some (tzinfo d) ->
  rss_entry (fst (published e (Some (PubDatetime d)))) = Ok item ->
  published e (Some (PubDatetime d)) = (set_rss_pubDate (Some d) e, Ok (Some d))
  /\ pubdate dateutil_parse e (Some (PubDatetime d))
     = published e (Some (PubDatetime d))
  /\ Render.named "pubDate" item
     = [Element "pubDate" [] (Some (Plain (formatRFC2822 d))) []].
Proof.
  intros [z Hz] Hitem.
  assert (Hset : published e (Some (PubDatetime d))
                 = (set_rss_pubDate (Some d) e, Ok (Some d))).
  { unfold Episode.published. rewrite Hz. destruct e; reflexivity. }
  split; [assumption|]. split; [reflexivity|].
  rewrite Hset in Hitem. simpl fst in Hitem.
  destruct (plain_elements "pubDate" _ item (fun _ => eq_refl) Hitem)
    as (enc & Henc & ->).
  rewrite !List.filter_app.
  unfold title_part, link_part, guid_part, comments_part, author_part,
    category_part.
  rewrite !filter_if_true by reflexivity.
  rewrite !filter_map_none by reflexivity.
  rewrite filter_description_part by reflexivity.
  rewrite (filter_enclosure_part _ (set_rss_pubDate (Some d) e) enc)
    by (reflexivity || assumption).
  unfold Episode.pubDate_part.
  assert (Hget : __rss_pubDate (set_rss_pubDate (Some d) e) = Some d)
    by (destruct e; reflexivity).
  rewrite Hget. reflexivity.
Qed.

(** ** The order of the elements *)

Lemma band_nil (lo hi : nat) : Render.in_band lo hi [].
Proof. split; constructor. Qed.

Lemma band_const (k : nat) (l : list element) :
  Forall (fun x => Render.rank x = k) l -> Render.in_band k k l.
Proof.
  intros H. split.
  - eapply Forall_impl; [exact H|]. simpl. intros x ->. lia.
  - induction H as [|x l Hx Hl IH]; constructor; [assumption|].
    eapply Forall_impl; [exact Hl|]. simpl. intros y Hy.
    unfold Render.before. lia.
Qed.

Lemma band_if_true (k : nat) (v : option string) (f : string -> element) :
  (forall s, Render.rank (f s) = k) -> Render.in_band k k (if_true v f).
Proof.
  intros H. apply band_const. unfold if_true.
  destruct v as [s|]; [|constructor].
  destruct (PyStr.truthy (Some s)); repeat constructor. apply H.
Qed.

Lemma band_map {A} (k : nat) (f : A -> element) (l : list A) :
  (forall a, Render.rank (f a) = k) -> Render.in_band k k (List.map f l).
Proof.
  intros H. apply band_const.
  induction l as [|a l IH]; constructor; [apply H|assumption].
Qed.

Lemma band_app (a b c d : nat) (l1 l2 : list element) :
  a <= b -> b <= c -> c <= d ->
  Render.in_band a b l1 -> Render.in_band c d l2 ->
  Render.in_band a d (l1 ++ l2).
Proof.
  intros Hab Hbc Hcd [H1 S1] [H2 S2]. split.
  - apply Forall_app. split.
    + eapply Forall_impl; [exact H1|]. simpl. intros x Hx. lia.
    + eapply Forall_impl; [exact H2|]. simpl. intros x Hx. lia.
  - apply StronglySorted_app_2; try assumption.
    intros x1 x2 Hx1 Hx2.
    rewrite Forall_forall in H1, H2.
    specialize (H1 x1 Hx1). specialize (H2 x2 Hx2).
    unfold Render.before. lia.
Qed.

Lemma band_description (e : episode) : Render.in_band 2 3 (description_part e).
Proof.
  unfold description_part.
  destruct (__rss_description e) as [d|], (__rss_content e) as [c|];
    try destruct (PyStr.truthy (Some d));
    try apply band_nil;
    try (apply (band_app 2 2 3 3 [_] [_]); try lia; apply band_const;
         repeat constructor);
    (apply (band_app 2 2 3 3 [_] []); try lia;
     [apply band_const; repeat constructor | apply band_nil]).
Qed.

Lemma band_enclosure (e : episode) enc :
  enclosure_part e = Ok enc -> Render.in_band 8 8 enc.
Proof.
  intros Henc. apply enclosure_part_inv in Henc.
  destruct (__rss_enclosure e) as [stored|];
    [destruct Henc as (n & t & _ & _ & ->)|subst];
    apply band_const; repeat constructor.
Qed.

Lemma band_itunes (e : episode) : Render.in_band 10 18 (itunes_part e).
Proof.
  unfold itunes_part.
  apply (band_app 10 10 11 18); try lia; [now apply band_if_true|].
  apply (band_app 11 11 12 18); try lia.
  { destruct (__itunes_block e); apply band_const; repeat constructor. }
  apply (band_app 12 12 13 18); try lia; [now apply band_if_true|].
  apply (band_app 13 13 14 18); try lia; [now apply band_if_true|].
  apply (band_app 14 14 15 18); try lia.
  { destruct (__itunes_explicit e) as [x|];
      try destruct (bool_decide (x ∈ _)); apply band_const; repeat constructor. }
  apply (band_app 15 15 16 18); try lia.
  { destruct (__itunes_is_closed_captioned e); apply band_const;
      repeat constructor. }
  apply (band_app 16 16 17 18); try lia.
  { destruct (__itunes_order e) as [n|]; try destruct (0 <=? n)%Z;
      apply band_const; repeat constructor. }
  apply (band_app 17 17 18 18); try lia; now apply band_if_true.
Qed.

(** X5.  The children of a rendered item stand in the order of the blocks
    of [rss_entry]: title, link, description, encoded, author, guid,
    category, comments, enclosure, pubDate, and then the iTunes elements
    author, block, image, duration, explicit, isClosedCaptioned, order,
    subtitle, summary.  No child has another tag, and none has children of
    its own. *)
Theorem rss_entry_element_order (e : episode) (item : element) :
  rss_entry e = Ok item ->
  StronglySorted Render.before (children item)
  /\ Forall (fun x => tag x ∈ Render.tag_order /\ children x = [])
            (children item).
Proof.
  intros Hitem.
  destruct (children_entry e item Hitem) as (enc & Henc & ->).
  assert (Hband : Render.in_band 0 18
            (title_part e ++ link_part e ++ description_part e ++ author_part e
             ++ guid_part e ++ category_part e ++ comments_part e ++ enc
             ++ pubDate_part e ++ itunes_part e)).
  { apply (band_app 0 0 1 18); try lia; [now apply band_if_true|].
    apply (band_app 1 1 2 18); try lia; [now apply band_if_true|].
    apply (band_app 2 3 4 18); try lia; [apply band_description|].
    apply (band_app 4 4 5 18); try lia; [now apply band_map|].
    apply (band_app 5 5 6 18); try lia; [now apply band_if_true|].
    apply (band_app 6 6 7 18); try lia; [now apply band_map|].
    apply (band_app 7 7 8 18); try lia; [now apply band_if_true|].
    apply (band_app 8 8 9 18); try lia; [now apply (band_enclosure e)|].
    apply (band_app 9 9 10 18); try lia; [|apply band_itunes].
    unfold Episode.pubDate_part. destruct (__rss_pubDate e);
      apply band_const; repeat constructor. }
  destruct Hband as [Hranks Hsorted]. split; [assumption|].
  clear Hsorted Hitem.
  assert (Hleaf : Forall (fun x => children x = [])
            (title_part e ++ link_part e ++ description_part e ++ author_part e
             ++ guid_part e ++ category_part e ++ comments_part e ++ enc
             ++ pubDate_part e ++ itunes_part e)).
  { repeat (apply Forall_app; split);
      unfold title_part, link_part, guid_part, comments_part, author_part,
        category_part, description_part, Episode.pubDate_part, if_true;
      repeat case_match; repeat constructor;
      try (apply Forall_forall; intros x Hx;
           apply list_elem_of_In, in_map_iff in Hx as (a & <- & _); reflexivity).
    apply enclosure_part_inv in Henc.
    destruct (__rss_enclosure e) as [stored|];
      [destruct Henc as (n & t & _ & _ & ->)|subst]; repeat constructor. }
  rewrite Forall_forall in Hranks, Hleaf. apply Forall_forall. intros x Hx.
  split; [|apply Hleaf, Hx].
  specialize (Hranks x Hx). unfold Render.rank in Hranks.
  destruct Hranks as [_ Hle].
  assert (Hidx : forall t l, Render.index_of t l < List.length l -> t ∈ l).
  { intros t l. induction l as [|y l IH]; simpl; [lia|].
    destruct (String.eqb_spec t y) as [->|Hne]; intros Hlt.
    - apply list_elem_of_here.
    - apply list_elem_of_further, IH. lia. }
  apply Hidx. change (List.length Render.tag_order) with 19. lia.
Qed.

(** ** What [rss_entry] returns *)

(** X6.  What a call of [rss_entry] comes to.  It raises its own
    ValueError exactly when none of title, description and content holds a
    true value.  An item it returns has neither attributes nor text, and
    comes from an episode where one of the three holds a true value and
    where an enclosure, if one is stored, has a text as its length and as
    its type.  Every other failure is lxml's: a ValueError for a text it
    refuses, or a TypeError, which only a stored enclosure whose length or
    type is no text brings about. *)
Theorem rss_entry_outcome (e : episode) :
  (rss_entry e = Raise (ValueError "Required fields not set")
   <-> required_missing e = true)
  /\ (forall item,
        rss_entry e = Ok item ->
        required_missing e = false
        /\ item = Element "item" [] None (children item)
        /\ (forall enc,
              __rss_enclosure e = Some enc ->
              exists l t, enclosure_length enc = Some (PyStr l)
                          /\ enclosure_type enc = Some (PyStr t)))
  /\ (forall x,
        rss_entry e = Raise x ->
        x = ValueError "Required fields not set"
        \/ x = xml_error
        \/ x = ValueError "']]>' not allowed inside CDATA"
        \/ exists enc v,
             __rss_enclosure e = Some enc
             /\ (v = enclosure_length enc \/ v = enclosure_type enc)
             /\ (forall s, v <> Some (PyStr s))
             /\ x = TypeError ("Argument must be bytes or unicode, got '"
                               +:+ type_name v +:+ "'")).
Proof.
  split; [|split].
  - split.
    + intros H. apply rss_entry_raise in H as [[H _]|[_ H]]; [exact H|].
      destruct H as [H|[H|(enc & v & _ & _ & _ & H)]]; discriminate H.
    + unfold Episode.rss_entry. now intros ->.
  - intros item H. apply rss_entry_ok in H as (Hreq & l & Hl & ->).
    split; [exact Hreq|]. split; [reflexivity|].
    intros enc Henc. apply enclosure_part_inv in Hl. rewrite Henc in Hl.
    destruct Hl as (n & t & Hn & Ht & _). eauto.
  - intros x H. apply rss_entry_raise in H as [[_ ->]|[_ H]]; [now left|].
    right. exact H.
Qed.

(** ** Categories *)

Lemma category_loop_ok (l : list dict) (cs stored : list category_dict) :
  Forall2 (fun d c => rss_cat d = Ok c) l cs ->
  category_loop stored l = (stored ++ cs, Ok tt).
Proof.
  intros H. revert stored.
  induction H as [|d c l cs Hd Hl IH]; intros stored; simpl.
  - now rewrite app_nil_r.
  - rewrite Hd, IH, <- app_assoc. reflexivity.
Qed.

Lemma category_loop_fails (good : list dict) (cs stored : list category_dict)
    (bad : dict) (rest : list dict) (x : exn) :
  Forall2 (fun d c => rss_cat d = Ok c) good cs ->
  rss_cat bad = Raise x ->
  category_loop stored (good ++ bad :: rest) = (stored ++ cs, Raise x).
Proof.
  intros H Hbad. revert stored.
  induction H as [|d c l cs Hd Hl IH]; intros stored; simpl.
  - now rewrite Hbad, app_nil_r.
  - rewrite Hd, IH, <- app_assoc. reflexivity.
Qed.

Lemma set_rss_category_twice (v w : option (list category_dict)) (e : episode) :
  set_rss_category v (set_rss_category w e) = set_rss_category v e
  /\ __rss_category (set_rss_category v e) = v.
Proof. destruct e; split; reflexivity. Qed.

Lemma category_base (e : episode) (replace : bool) :
  let e0 := if replace || bool_decide (__rss_category e = None)
            then set_rss_category (Some []) e else e in
  default [] (__rss_category e0)
  = (if replace then [] else default [] (__rss_category e))
  /\ forall v, set_rss_category v e0 = set_rss_category v e.
Proof.
  simpl.
  destruct replace, e as [a [old|] ? ? ? ? ? ? ? ? ? ? ? ? ? ? ? ? ? ?];
    split; reflexivity.
Qed.

(** X7.  When every record of the list has a value (a non-empty label,
    or else a term), [category] stores the converted records in the order
    of the list: alone when [replace] is true, after the categories
    already stored when it is false; it returns the stored list. *)
Theorem category_appends (e : episode) (l : list dict)
    (cs : list category_dict) (replace : bool) :
  Forall2 (fun d c => rss_cat d = Ok c) l cs ->
  let all := (if replace then [] else default [] (__rss_category e)) ++ cs in
  category e (Some (Several l)) replace ∅
  = (set_rss_category (Some all) e, Ok (Some all)).
Proof.
  intros H. simpl. unfold category.
  destruct (category_base e replace) as [Hbase Hset]. simpl in Hbase, Hset.
  rewrite (category_loop_ok l cs _ H), Hbase, Hset.
  destruct e; reflexivity.
Qed.

(** X8.  [category] is not all-or-nothing.  When a record has neither a
    non-empty label nor a term, the call raises KeyError for the key
    'term'; the records in front of it are stored all the same, and with
    [replace] the categories stored before the call are gone. *)
Theorem category_failure_keeps_prefix (e : episode) (good : list dict)
    (cs : list category_dict) (bad : dict) (rest : list dict)
    (replace : bool) :
  Forall2 (fun d c => rss_cat d = Ok c) good cs ->
  bad !! "label" = None \/ bad !! "label" = Some "" ->
  bad !! "term" = None ->
  let all := (if replace then [] else default [] (__rss_category e)) ++ cs in
  category e (Some (Several (good ++ bad :: rest))) replace ∅
  = (set_rss_category (Some all) e, Raise (KeyError "term")).
Proof.
  intros H Hlabel Hterm. simpl. unfold category.
  assert (Hbad : rss_cat bad = Raise (KeyError "term")).
  { unfold rss_cat. destruct Hlabel as [-> | ->]; simpl; now rewrite Hterm. }
  destruct (category_base e replace) as [Hbase Hset]. simpl in Hbase, Hset.
  rewrite (category_loop_fails good cs _ bad rest _ H Hbad), Hbase, Hset.
  reflexivity.
Qed.

(** X9.  A non-empty label wins over the term: after [category] with one
    record that has a non-empty label, and [replace], the item holds one
    [category] element; its text is the label, whatever the term, and it
    has a [domain] attribute exactly when the record has a non-empty
    scheme. *)
Theorem category_label_rendered (e : episode) (d : dict) (label : string)
    (item : element) :
  d !! "label" = Some label -> label <> "" ->
  rss_entry (fst (category e (Some (Single d)) true ∅)) = Ok item ->
  Render.named "category" item
  = [Element "category"
       (match d !! "scheme" with
        | Some (String c s) => [("domain", String c s)]
        | _ => []
        end)
       (Some (Plain label)) []].
Proof.
  intros Hlabel Hne Hitem.
  rewrite (category_elements _ item Hitem).
  assert (Hcat : rss_cat d
                 = Ok {| category_value := label;
                         category_domain :=
                           if PyStr.truthy (d !! "scheme")
                           then d !! "scheme" else None |}).
  { unfold rss_cat. rewrite Hlabel.
    destruct label as [|c label]; [contradiction|]. reflexivity. }
  unfold category. cbn -[rss_cat set_rss_category]. rewrite Hcat.
  destruct (d !! "scheme") as [[|c' s]|]; destruct e; reflexivity.
Qed.

End EpisodeRendering.

(** ** Closed instances for the further properties of episodes *)

Lemma itunes_order_rendered_witness :
  Render.named (Episode.qname Episode.ITUNES_NS "order")
    (Element "item" [] None [leaf "title" "Episode 1"])
  = [].
Proof.
  exact (proj2 (itunes_order_rendered
             Standin.formatRFC2822 Standin.cdata_allowed
           (fst (Episode.title Episode.__init__ (Some "Episode 1"))) (-1)
           (Element "item" [] None [leaf "title" "Episode 1"]) eq_refl)).
Defined.

Lemma itunes_explicit_rendered_witness :
  Render.named (Episode.qname Episode.ITUNES_NS "explicit")
    (Element "item" [] None
       [leaf "title" "Episode 1";
        leaf (Episode.qname Episode.ITUNES_NS "explicit") "clean"])
  = [leaf (Episode.qname Episode.ITUNES_NS "explicit") "clean"].
Proof.
  refine (proj2 (itunes_explicit_rendered
             Standin.formatRFC2822 Standin.cdata_allowed
           (fst (Episode.title Episode.__init__ (Some "Episode 1"))) "clean"
           (Element "item" [] None
              [leaf "title" "Episode 1";
               leaf (Episode.qname Episode.ITUNES_NS "explicit") "clean"])
           _ eq_refl)).
  do 3 apply list_elem_of_further. apply list_elem_of_here.
Defined.

Lemma authors_and_guid_rendered_witness :
  Render.named "guid"
    (Element "item" [] None
       [leaf "title" "Episode 1";
        Element "guid" [("isPermaLink", "false")] (Some (Plain "ep-1")) []])
  = [Element "guid" [("isPermaLink", "false")] (Some (Plain "ep-1")) []].
Proof.
  exact (proj2 (authors_and_guid_rendered
             Standin.formatRFC2822 Standin.cdata_allowed
           (Episode.run Standin.dateutil_parse
              [Episode.Title (Some "Episode 1"); Episode.Guid (Some "ep-1")])
           _ eq_refl)).
Defined.

Lemma rss_entry_element_order_witness :
  StronglySorted Render.before
    [leaf "title" "Episode 1"; leaf "description" "About";
     leaf (Episode.qname Episode.ITUNES_NS "order") "3"].
Proof.
  exact (proj1 (rss_entry_element_order
             Standin.formatRFC2822 Standin.cdata_allowed
           (Episode.run Standin.dateutil_parse
              [Episode.ItunesOrder (Some (PyInt 3));
               Episode.Description (Some "About");
               Episode.Title (Some "Episode 1")])
           _ eq_refl)).
Defined.

(** Two records: one with a label and a term, one with a term and a
    scheme. *)
Lemma category_appends_witness :
  Episode.category Episode.__init__
    (Some (Several [ {[ "label" := "Tech"; "term" := "t" ]};
                     {[ "term" := "news"; "scheme" := "http://s" ]} ]))
    false ∅
  = (Episode.set_rss_category
       (Some [ {| Episode.category_value := "Tech";
                  Episode.category_domain := None |};
               {| Episode.category_value := "news";
                  Episode.category_domain := Some "http://s" |} ])
       Episode.__init__,
     Ok (Some [ {| Episode.category_value := "Tech";
                   Episode.category_domain := None |};
                {| Episode.category_value := "news";
                   Episode.category_domain := Some "http://s" |} ])).
Proof.
  apply (category_appends Episode.__init__ _ _ false).
  repeat constructor.
Defined.

(** A record with a scheme alone, after a good one: the good one stays. *)
Lemma category_failure_keeps_prefix_witness :
  Episode.category Episode.__init__
    (Some (Several [ {[ "term" := "news" ]}; {[ "scheme" := "http://s" ]} ]))
    true ∅
  = (Episode.set_rss_category
       (Some [ {| Episode.category_value := "news";
                  Episode.category_domain := None |} ])
       Episode.__init__,
     Raise (KeyError "term")).
Proof.
  apply (category_failure_keeps_prefix Episode.__init__
           [ {[ "term" := "news" ]} ] _ {[ "scheme" := "http://s" ]} [] true).
  - repeat constructor.
  - left. reflexivity.
  - reflexivity.
Defined.

Lemma category_label_rendered_witness :
  Render.named "category"
    (Element "item" [] None
       [leaf "title" "Episode 1";
        Element "category" [("domain", "http://s")] (Some (Plain "Tech")) []])
  = [Element "category" [("domain", "http://s")] (Some (Plain "Tech")) []].
Proof.
  refine (category_label_rendered Standin.formatRFC2822 Standin.cdata_allowed
            (fst (Episode.title Episode.__init__ (Some "Episode 1")))
            {[ "label" := "Tech"; "term" := "t"; "scheme" := "http://s" ]}
            "Tech" _ eq_refl _ eq_refl).
  discriminate.
Defined.

Lemma itunes_image_rendered_witness :
  Render.named (Episode.qname Episode.ITUNES_NS "image")
    (Element "item" [] None
       [leaf "title" "Episode 1";
        Element (Episode.qname Episode.ITUNES_NS "image")
                [("href", "http://x.com/Cover.PNG")] None []])
  = [Element (Episode.qname Episode.ITUNES_NS "image")
             [("href", "http://x.com/Cover.PNG")] None []].
Proof.
  exact (proj2 (itunes_image_rendered
             Standin.formatRFC2822 Standin.cdata_allowed
           (fst (Episode.title Episode.__init__ (Some "Episode 1")))
           "http://x.com/Cover.PNG" _ eq_refl eq_refl)).
Defined.

(** A duration of four fields with a letter: stored and rendered. *)
Lemma itunes_duration_unchecked_witness :
  Render.named (Episode.qname Episode.ITUNES_NS "duration")
    (Element "item" [] None
       [leaf "title" "Episode 1";
        leaf (Episode.qname Episode.ITUNES_NS "duration") "1:2:3:4x"])
  = [leaf (Episode.qname Episode.ITUNES_NS "duration") "1:2:3:4x"].
Proof.
  exact (proj2 (itunes_duration_unchecked
             Standin.formatRFC2822 Standin.cdata_allowed
           (fst (Episode.title Episode.__init__ (Some "Episode 1")))
           (PyStr "1:2:3:4x") _ eq_refl)).
Defined.

Lemma published_rendered_witness :
  Render.named "pubDate"
    (Element "item" [] None
       [leaf "title" "Episode 1";
        leaf "pubDate" (Standin.formatRFC2822 Episode.utc_2020)])
  = [leaf "pubDate" (Standin.formatRFC2822 Episode.utc_2020)].
Proof.
  refine (proj2 (proj2 (published_rendered Standin.dateutil_parse
            Standin.formatRFC2822 Standin.cdata_allowed
            (fst (Episode.title Episode.__init__ (Some "Episode 1")))
            Episode.utc_2020 _ _ eq_refl))).
  exists 0%Z. reflexivity.
Defined.

(** * Further properties of numbers and of [Media] *)

(** ** Decimal texts: [str] of an int and [int] of its text *)

Lemma digit_char (c : ascii) :
  PyNum.is_digit c = true ->
  Ascii.eqb c "_" = false /\ Ascii.eqb c " " = false
  /\ PyStr.mem c PyStr.whitespace = false /\ PyStr.lower_char c = c
  /\ PyStr.mem c "bkimgt" = false /\ Ascii.eqb c "i" = false
  /\ Ascii.eqb c "n" = false
  /\ (forall s, PyNum.take_sign (String c s) = (false, String c s)).
Proof.
  destruct c as [[] [] [] [] [] [] [] []]; intros H; try discriminate H;
    repeat split.
Qed.

Lemma all_digits_uint (d : Decimal.uint) :
  all_digits (NilEmpty.string_of_uint d) = true.
Proof. induction d; simpl; auto. Qed.

Lemma all_digits_cons (c : ascii) (s : string) :
  all_digits (String c s) = true ->
  PyNum.is_digit c = true /\ all_digits s = true.
Proof. unfold all_digits. simpl. apply andb_true_iff. Qed.

Lemma digits_lower (s : string) : all_digits s = true -> PyStr.lower s = s.
Proof.
  induction s as [|c s IH]; [reflexivity|].
  intros H. apply all_digits_cons in H as [Hc Hs]. simpl.
  destruct (digit_char c Hc) as (_ & _ & _ & -> & _). now rewrite IH.
Qed.

Lemma digits_rstrip (chars s : string) :
  (forall c, PyNum.is_digit c = true -> PyStr.mem c chars = false) ->
  all_digits s = true -> PyStr.rstrip chars s = s.
Proof.
  intros Hchars. induction s as [|c s IH]; [reflexivity|].
  intros H. apply all_digits_cons in H as [Hc Hs]. simpl.
  rewrite (IH Hs), (Hchars c Hc). now destruct s.
Qed.

Lemma digits_remove_spaces (s : string) :
  all_digits s = true -> PyStr.remove_spaces s = s.
Proof.
  induction s as [|c s IH]; [reflexivity|].
  intros H. apply all_digits_cons in H as [Hc Hs]. simpl.
  destruct (digit_char c Hc) as (_ & -> & _). now rewrite IH.
Qed.

Lemma digits_drop_underscores (prev : ascii) (s : string) :
  Ascii.eqb prev "_" = false -> all_digits s = true ->
  PyNum.drop_underscores prev s = Some s.
Proof.
  revert prev. induction s as [|c s IH]; intros prev Hprev H; simpl.
  - now rewrite Hprev.
  - apply all_digits_cons in H as [Hc Hs].
    destruct (digit_char c Hc) as (Hu & _).
    rewrite Hu, Hprev. simpl. now rewrite (IH c Hu Hs).
Qed.

Lemma digits_span (s : string) :
  all_digits s = true -> PyNum.span_digits s = (s, EmptyString).
Proof.
  induction s as [|c s IH]; [reflexivity|].
  intros H. apply all_digits_cons in H as [Hc Hs]. simpl.
  now rewrite Hc, (IH Hs).
Qed.

Lemma digits_strip (s : string) :
  all_digits s = true -> PyStr.strip s = s.
Proof.
  intros H. unfold PyStr.strip.
  rewrite digits_rstrip by (assumption || (intros c Hc; apply digit_char, Hc)).
  destruct s as [|c s]; [reflexivity|].
  apply all_digits_cons in H as [Hc _]. simpl.
  destruct (digit_char c Hc) as (_ & _ & -> & _). reflexivity.
Qed.

Lemma minus_strip (s : string) :
  all_digits s = true -> PyStr.strip (String "-" s) = String "-" s.
Proof.
  intros H. unfold PyStr.strip.
  change (PyStr.rstrip PyStr.whitespace (String "-" s))
    with (match PyStr.rstrip PyStr.whitespace s with
          | EmptyString => String "-" EmptyString
          | r => String "-" r
          end).
  rewrite digits_rstrip by (assumption || (intros c Hc; apply digit_char, Hc)).
  now destruct s.
Qed.

Lemma of_uint_acc_fold (d : Decimal.uint) (acc : positive) :
  fold_left (fun a c => 10 * a + PyNum.digit_val c)%Z
    (list_ascii_of_string (NilEmpty.string_of_uint d)) (Zpos acc)
  = Zpos (Pos.of_uint_acc d acc).
Proof.
  revert acc. induction d; intros acc; simpl; [reflexivity|..];
    match goal with
    | |- fold_left _ _ ?z = Zpos (Pos.of_uint_acc _ ?p) =>
        replace z with (Zpos p) by (unfold PyNum.digit_val; simpl; lia)
    end; apply IHd.
Qed.

Lemma Z_of_digits_uint (d : Decimal.uint) :
  PyNum.Z_of_digits (NilEmpty.string_of_uint d) = Z.of_N (Pos.of_uint d).
Proof.
  unfold PyNum.Z_of_digits.
  induction d; simpl; [reflexivity|exact IHd|..];
    match goal with
    | |- fold_left _ _ ?z = Zpos (Pos.of_uint_acc _ ?p) =>
        replace z with (Zpos p) by (unfold PyNum.digit_val; simpl; lia)
    end; apply of_uint_acc_fold.
Qed.

(** The decimal text of a positive number: digits, at least one, and its
    value is the number. *)
Lemma of_Z_pos (p : positive) :
  exists c s,
    PyStr.of_Z (Zpos p) = String c s
    /\ PyStr.of_Z (Zneg p) = String "-" (String c s)
    /\ all_digits (String c s) = true
    /\ PyNum.Z_of_digits (String c s) = Zpos p.
Proof.
  unfold PyStr.of_Z. simpl. unfold NilZero.string_of_uint.
  pose proof (DecimalPos.Unsigned.to_uint_nonnil p) as Hnil.
  pose proof (all_digits_uint (Pos.to_uint p)) as Hd.
  pose proof (Z_of_digits_uint (Pos.to_uint p)) as Hv.
  rewrite DecimalPos.Unsigned.of_to in Hv.
  destruct (Pos.to_uint p) eqn:E; try contradiction;
    simpl in *; eexists _, _; repeat split; eauto.
Qed.

Lemma int_of_string_of_Z (n : Z) : PyNum.int_of_string (PyStr.of_Z n) = Some n.
Proof.
  destruct n as [|p|p].
  - reflexivity.
  - destruct (of_Z_pos p) as (c & s & -> & _ & Hd & Hv).
    unfold PyNum.int_of_string.
    rewrite digits_strip, digits_drop_underscores by (assumption || reflexivity).
    cbn [mbind option_bind].
    apply all_digits_cons in Hd as Hd'. destruct Hd' as [Hc _].
    destruct (digit_char c Hc) as (_ & _ & _ & _ & _ & _ & _ & ->).
    rewrite digits_span by assumption. now rewrite Hv.
  - destruct (of_Z_pos p) as (c & s & _ & -> & Hd & Hv).
    unfold PyNum.int_of_string.
    rewrite minus_strip by assumption.
    change (PyNum.drop_underscores "000" (String "-" (String c s)))
      with (String "-" <$> PyNum.drop_underscores "-" (String c s)).
    rewrite digits_drop_underscores by (assumption || reflexivity).
    cbn [mbind option_bind fmap option_fmap option_map PyNum.take_sign].
    rewrite digits_span by assumption. now rewrite Hv.
Qed.

Lemma size_setter_decimal_text (self : Media.media) (n : Z) :
  Media.size_setter self (Some (PyStr (PyStr.of_Z n)))
  = Media.size_setter self (Some (PyInt n)).
Proof.
  unfold Media.size_setter.
  change (Media.size_setter_rec 2 self (Some (PyStr (PyStr.of_Z n))))
    with (match py_int (PyStr (PyStr.of_Z n)) with
          | Ok n0 =>
              match Media.store_size self n0 with
              | (_, Raise (ValueError _)) =>
                  match Media._str_to_bytes (PyInt n0) with
                  | Ok n1 => Media.size_setter_rec 1 self (Some (PyInt n1))
                  | Raise e => Some (Media.raise e)
                  end
              | r => Some r
              end
          | Raise (ValueError _) =>
              match Media._str_to_bytes (PyStr (PyStr.of_Z n)) with
              | Ok n1 => Media.size_setter_rec 1 self (Some (PyInt n1))
              | Raise e => Some (Media.raise e)
              end
          | Raise e => Some (Media.raise e)
          end).
  cbn [py_int]. rewrite int_of_string_of_Z. reflexivity.
Qed.

(** X10.  [str] and [int] are inverse on ints: the decimal text of any
    int, negative or not, reads back as that int.  So a size given as the
    decimal text of an int is handled as that int, and so is an order. *)
Theorem int_text_round_trip (n : Z) :
  py_int (PyStr (py_str (PyInt n))) = Ok n
  /\ (forall self,
        Media.size_setter self (Some (PyStr (py_str (PyInt n))))
        = Media.size_setter self (Some (PyInt n)))
  /\ (forall e,
        Episode.itunes_order e (Some (PyStr (py_str (PyInt n))))
        = Episode.itunes_order e (Some (PyInt n))).
Proof.
  assert (H : py_int (PyStr (py_str (PyInt n))) = Ok n)
    by (simpl; now rewrite int_of_string_of_Z).
  split; [assumption|]. split.
  - intros self. apply size_setter_decimal_text.
  - intros e. unfold Episode.itunes_order. now rewrite H.
Qed.

(** ** The size of a media *)

Lemma minus_rstrip (chars s : string) :
  (forall c, PyNum.is_digit c = true -> PyStr.mem c chars = false) ->
  PyStr.mem "-" chars = false ->
  all_digits s = true ->
  PyStr.rstrip chars (String "-" s) = String "-" s.
Proof.
  intros Hchars Hminus H.
  change (PyStr.rstrip chars (String "-" s))
    with (match PyStr.rstrip chars s with
          | EmptyString =>
              if PyStr.mem "-" chars then EmptyString else String "-" EmptyString
          | r => String "-" r
          end).
  rewrite digits_rstrip, Hminus by assumption. now destruct s.
Qed.

Lemma float_minus_digits (c : ascii) (s : string) :
  all_digits (String c s) = true ->
  is_Some (PyNum.float_of_string (String "-" (String c s))).
Proof.
  intros Hd. unfold PyNum.float_of_string.
  rewrite minus_strip by assumption.
  change (PyNum.drop_underscores "000" (String "-" (String c s)))
    with (String "-" <$> PyNum.drop_underscores "-" (String c s)).
  rewrite digits_drop_underscores by (assumption || reflexivity).
  cbn [mbind option_bind fmap option_fmap option_map PyNum.take_sign].
  rewrite digits_lower by assumption.
  apply all_digits_cons in Hd as Hd'. destruct Hd' as [Hc _].
  destruct (digit_char c Hc) as (_ & _ & _ & _ & _ & Hi & Hn & _).
  cbn [String.eqb]. rewrite Hi, Hn. cbn [andb orb].
  unfold PyNum.parse_decimal. rewrite digits_span by assumption.
  cbn. eauto.
Qed.

Lemma str_to_bytes_negative_unit (p : positive) :
  Media._str_to_bytes (PyInt (Zneg p))
  = Raise (ValueError ("The unit " +:+ PyStr.of_Z (Zneg p)
                       +:+ " was not recognized.")).
Proof.
  unfold Media._str_to_bytes. cbn [py_str].
  destruct (of_Z_pos p) as (c & s & _ & -> & Hd & _).
  change (PyStr.lower (String "-" (String c s)))
    with (String "-" (PyStr.lower (String c s))).
  rewrite digits_lower, minus_strip by assumption.
  change (PyStr.remove_spaces (String "-" (String c s)))
    with (String "-" (PyStr.remove_spaces (String c s))).
  rewrite digits_remove_spaces by assumption.
  rewrite minus_rstrip
    by (assumption || reflexivity || (intros c' Hc'; apply digit_char, Hc')).
  destruct (float_minus_digits c s Hd) as [x ->].
  change (PyStr.lstrip "0123456789." (String "-" (String c s)))
    with (String "-" (String c s)).
  now rewrite units_no_minus.
Qed.

(** X11.  A negative int is never stored as a size, and the failure is
    not the one the setter raises for it: that ValueError is caught by the
    setter's own handler, which passes the int to [_str_to_bytes], and what
    the caller sees is "The unit -N was not recognized." *)
Theorem size_setter_negative (self : Media.media) (p : positive) :
  Media.size_setter self (Some (PyInt (Zneg p)))
  = ([], Raise (ValueError ("The unit " +:+ PyStr.of_Z (Zneg p)
                            +:+ " was not recognized."))).
Proof.
  unfold Media.size_setter.
  change (Media.size_setter_rec 2 self (Some (PyInt (Z.neg p))))
    with (match Media._str_to_bytes (PyInt (Zneg p)) with
          | Ok n => Media.size_setter_rec 1 self (Some (PyInt n))
          | Raise e => Some (Media.raise e)
          end).
  now rewrite str_to_bytes_negative_unit.
Qed.

Lemma store_size_ok (self self' : Media.media) (n : Z) w :
  Media.store_size self n = (w, Ok self') ->
  (0 <= n)%Z /\ self' = Media.set_size (Some n) self
  /\ w = (if bool_decide (n = 0%Z) then [Media.size_zero_warning] else []).
Proof.
  unfold Media.store_size.
  destruct (Z.ltb_spec n 0) as [?|Hn]; [discriminate|].
  destruct (decide (n = 0%Z)) as [->|Hne].
  - rewrite !bool_decide_eq_true_2 by reflexivity.
    simpl. intros [= <- <-]. auto.
  - rewrite !bool_decide_eq_false_2 by (simpl; congruence).
    simpl. intros [= <- <-]. auto.
Qed.

Lemma size_setter_rec_S (fuel : nat) (self : Media.media) (size : option pyval) :
  Media.size_setter_rec (S fuel) self size
  = match size with
    | None => Media.size_setter_rec fuel self (Some (PyInt 0))
    | Some v =>
        match py_int v with
        | Ok n =>
            match Media.store_size self n with
            | (_, Raise (ValueError _)) =>
                match Media._str_to_bytes (PyInt n) with
                | Ok n' => Media.size_setter_rec fuel self (Some (PyInt n'))
                | Raise e => Some (Media.raise e)
                end
            | r => Some r
            end
        | Raise (ValueError _) =>
            match Media._str_to_bytes v with
            | Ok n' => Media.size_setter_rec fuel self (Some (PyInt n'))
            | Raise e => Some (Media.raise e)
            end
        | Raise e => Some (Media.raise e)
        end
    end.
Proof. reflexivity. Qed.

Lemma size_setter_rec_one (self self' : Media.media) (n : Z) w :
  Media.size_setter_rec 1 self (Some (PyInt n)) = Some (w, Ok self') ->
  Media.store_size self n = (w, Ok self').
Proof.
  rewrite size_setter_rec_S. cbn [py_int].
  destruct (Media.store_size self n) as [w0 [m|[msg|msg|msg|msg|msg]]];
    try (intros [= <- <-]; reflexivity); try discriminate.
  destruct (Media._str_to_bytes (PyInt n)); discriminate.
Qed.

Lemma size_setter_stored (self self' : Media.media) (size : option pyval)
    (w : list Media.warning) :
  Media.size_setter self size = (w, Ok self') ->
  exists n, (0 <= n)%Z
            /\ self' = Media.set_size (Some n) self
            /\ w = (if bool_decide (n = 0%Z) then [Media.size_zero_warning] else []).
Proof.
  unfold Media.size_setter. intros H.
  assert (Hstore : exists n, Media.store_size self n = (w, Ok self')).
  { revert H. rewrite (size_setter_rec_S 1). destruct size as [v|].
    - destruct (py_int v) as [n|[msg|msg|msg|msg|msg]];
        try (simpl; discriminate).
      + destruct (Media.store_size self n) as [w0 [m|[msg|msg|msg|msg|msg]]] eqn:Hs;
          try (simpl; intros [= <- <-]; eauto); try (simpl; discriminate).
        destruct (Media._str_to_bytes (PyInt n)) as [n'|x]; [|simpl; discriminate].
        destruct (Media.size_setter_rec 1 self (Some (PyInt n')))
          as [[w1 [m|x]]|] eqn:H1; simpl; try discriminate.
        intros [= <- <-]. apply size_setter_rec_one in H1. eauto.
      + destruct (Media._str_to_bytes v) as [n'|x]; [|simpl; discriminate].
        destruct (Media.size_setter_rec 1 self (Some (PyInt n')))
          as [[w1 [m|x]]|] eqn:H1; simpl; try discriminate.
        intros [= <- <-]. apply size_setter_rec_one in H1. eauto.
    - destruct (Media.size_setter_rec 1 self (Some (PyInt 0)))
        as [[w1 [m|x]]|] eqn:H1; simpl; try discriminate.
      intros [= <- <-]. apply size_setter_rec_one in H1. eauto. }
  destruct Hstore as [n Hn]. exists n. apply store_size_ok in Hn. tauto.
Qed.

(** X12.  Whatever the size setter is given, when it returns, the size it
    stored is an int of 0 or more, nothing else of the media changed, and
    the warning about an unknown size was issued exactly when the stored
    size is 0. *)
Theorem size_setter_invariant (self self' : Media.media) (size : option pyval)
    (w : list Media.warning) :
  Media.size_setter self size = (w, Ok self') ->
  exists n, (0 <= n)%Z
            /\ self' = Media.set_size (Some n) self
            /\ w = (if bool_decide (n = 0%Z) then [Media.size_zero_warning] else []).
Proof. apply size_setter_stored. Qed.

(** ** The type of a media and its construction *)

Lemma whitespace_rstrip (s : string) :
  forallb (fun c => PyStr.mem c PyStr.whitespace) (list_ascii_of_string s) = true ->
  PyStr.rstrip PyStr.whitespace s = EmptyString.
Proof.
  induction s as [|c s IH]; [reflexivity|].
  simpl. intros H. apply andb_true_iff in H as [Hc Hs].
  now rewrite (IH Hs), Hc.
Qed.

(** X13.  The type setter refuses [None] and the empty text, but a text
    of whitespace alone passes that test: it is stripped afterwards, and
    the empty type is stored, with the warning for an unsupported type. *)
Theorem type_setter_blank (self : Media.media) (c : ascii) (s : string) :
  forallb (fun c => PyStr.mem c PyStr.whitespace)
          (list_ascii_of_string (String c s)) = true ->
  Media.type_setter self (Some (String c s))
  = ([Media.NotSupportedByItunesWarning "Media type %s is not supported by iTunes."],
     Ok (Media.set_type (Some "") self))
  /\ Media.type_setter self (Some "")
     = ([], Raise (ValueError "Type cannot be empty or None"))
  /\ Media.type_setter self None
     = ([], Raise (ValueError "Type cannot be empty or None")).
Proof.
  intros H. split; [|split; reflexivity].
  unfold Media.type_setter, PyStr.strip.
  rewrite (whitespace_rstrip _ H). reflexivity.
Qed.

Section MediaConstruction.

Import Media.

Variable urlparse : string -> parse_result.

Local Abbreviation Media := (Media.__init__ urlparse).
Local Abbreviation extension := (Media.extension urlparse).

Lemma type_setter_ok (self self' : media) (type : option string) w :
  type_setter self type = (w, Ok self') ->
  exists t, type = Some t /\ t <> ""
            /\ self' = set_type (Some (PyStr.lower (PyStr.strip t))) self.
Proof.
  unfold type_setter.
  destruct type as [[|c t]|]; [discriminate| |discriminate].
  destruct (bool_decide _); simpl; intros [= <- <-]; eexists;
    (split; [reflexivity|split; [discriminate|reflexivity]]).
Qed.

Lemma url_setter_ok (self self' : media) (url : string) w :
  Media.url_setter urlparse self url = (w, Ok self') ->
  url <> "" /\ self' = set_url (Some url) self.
Proof.
  unfold Media.url_setter. cbv zeta.
  destruct (String.eqb_spec url "") as [->|Hne]; [discriminate|].
  destruct (bool_decide (is_Some _)), (bool_decide (_ ∈ _)); simpl;
    intros [= <- <-]; auto.
Qed.

(** X14.  When the constructor returns a media, every attribute has a
    value: the URL is the one given and is not empty, the size is an int
    of 0 or more, and the type is the given one, stripped and in lower
    case, or, when none was given, the table's entry for the extension of
    the URL as written. *)
Theorem media_attributes_set (url : string) (size : option pyval)
    (type : option string) (w : list warning) (m : media) :
  Media url size type = (w, Ok m) ->
  url <> ""
  /\ _url m = Some url
  /\ (exists n, _size m = Some n /\ (0 <= n)%Z)
  /\ (forall t, type = Some t -> t <> "" ->
                _type m = Some (PyStr.lower (PyStr.strip t)))
  /\ (PyStr.truthy type = false ->
      _type m = file_types !! extension url /\ is_Some (_type m)).
Proof.
  unfold Media.__init__.
  destruct (Media.url_setter urlparse _ url) as [w1 [m1|x]] eqn:Hurl;
    [|discriminate].
  apply url_setter_ok in Hurl as [Hne ->].
  cbn [mbind W_bind].
  destruct (size_setter _ size) as [w2 [m2|x]] eqn:Hsize; [|discriminate].
  apply size_setter_stored in Hsize as (n & Hn & -> & _).
  destruct (PyStr.truthy type) eqn:Htruthy.
  - cbn [mbind W_bind mret W_ret].
    destruct (type_setter _ type) as [w3 [m3|x]] eqn:Htype; [|discriminate].
    apply type_setter_ok in Htype as (t & -> & Ht & ->).
    simpl. intros [= _ <-]. simpl.
    split; [assumption|]. split; [reflexivity|]. split; [eauto|]. split.
    + intros t' [= <-] _. reflexivity.
    + intros Hf. congruence.
  - rewrite get_type_lookup. fold (extension url).
    destruct (file_types !! extension url) as [mime|] eqn:Hmime;
      [|discriminate].
    destruct (file_types_normal _ _ Hmime) as (_ & Hnorm & Hmne & _).
    cbn [lift fmap result_fmap mbind W_bind].
    destruct (type_setter _ (Some mime)) as [w3 [m3|x]] eqn:Htype;
      [|discriminate].
    apply type_setter_ok in Htype as (t & [= <-] & Ht & ->).
    simpl. intros [= _ <-]. simpl. rewrite Hnorm.
    split; [assumption|]. split; [reflexivity|]. split; [eauto|]. split.
    + intros t' -> Hne'. destruct t'; [contradiction|simpl in Htruthy; congruence].
    + intros _. split; [reflexivity|eauto].
Qed.

(** X15.  For a non-empty http or https URL whose extension, as written,
    is in the table, the constructor called with the default size and
    without a type issues one warning, the one about the unknown size, and
    returns the media with the URL, the size 0 and the type the table
    gives for the extension. *)
Theorem media_supported_url (url mime : string) :
  url <> "" ->
  scheme (urlparse url) ∈ ["http"; "https"] ->
  file_types !! extension url = Some mime ->
  Media url (Some (PyInt 0)) None
  = ([size_zero_warning],
     Ok {| _url := Some url; _size := Some 0%Z; _type := Some mime |}).
Proof.
  intros Hurl Hs Hmime.
  destruct (file_types_normal _ _ Hmime) as (Hlow & Hnorm & Hmne & Hin).
  unfold Media.__init__.
  destruct (url_setter_stores urlparse
              {| _url := None; _size := None; _type := None |} url Hurl)
    as (w1 & -> & Hw1 & _).
  rewrite Hw1; [|fold (extension url); rewrite Hlow; eauto|assumption].
  cbn [mbind W_bind]. rewrite size_setter_int by lia.
  cbn [PyStr.truthy]. rewrite get_type_lookup. fold (extension url).
  rewrite Hmime. cbn [lift fmap result_fmap mbind W_bind].
  unfold type_setter. destruct mime as [|c mime]; [contradiction|].
  rewrite Hnorm, bool_decide_eq_true_2 by assumption. reflexivity.
Qed.

End MediaConstruction.

(** ** Construction from a server response *)

Section ServerResponse.

Import Media MediaServer.

Variable urlparse : string -> parse_result.
Variable response : Type.
Variable head : string -> server_result response.
Variable raise_for_status : response -> server_result unit.
Variable headers : response -> string -> option string.

Local Abbreviation create :=
  (create_from_server_response urlparse response head raise_for_status headers).

(** X16.  The server is asked only for what is missing.  With a true size
    and a non-empty type the factory makes no request: the result is that
    of the constructor.  Otherwise a failing request or an error status
    ends the call before anything is constructed or warned about, an
    empty URL included. *)
Theorem server_asked_when_needed (url : string) (size : option pyval)
    (type : option string) :
  (size_truthy size = true -> PyStr.truthy type = true ->
   create url size type = constructed (Media.__init__ urlparse url size type))
  /\ (size_truthy size && PyStr.truthy type = false ->
      forall x, head url = Failed x -> create url size type = ([], Failed x))
  /\ (size_truthy size && PyStr.truthy type = false ->
      forall r x, head url = Built r -> raise_for_status r = Failed x ->
                  create url size type = ([], Failed x)).
Proof.
  unfold create_from_server_response, constructed. repeat split.
  - intros -> ->. reflexivity.
  - intros -> x ->. reflexivity.
  - intros -> r x -> ->. reflexivity.
Qed.

(** X17.  After a successful request, a size that is not true is taken
    from the header Content-Length and a type that is not true from
    Content-Type.  A missing Content-Length raises RuntimeError, before
    Content-Type is looked at; a missing Content-Type raises RuntimeError
    when the size is there.  Nothing is constructed in either case. *)
Theorem server_missing_header (url : string) (size : option pyval)
    (type : option string) (r : response) :
  head url = Built r -> raise_for_status r = Built tt ->
  (size_truthy size = false -> headers r "Content-Length" = None ->
   create url size type
   = ([], Failed (RuntimeError ("Content-Length not returned by server "
                                +:+ "when sending HEAD request to " +:+ url))))
  /\ (PyStr.truthy type = false ->
      size_truthy size = true \/ is_Some (headers r "Content-Length") ->
      headers r "Content-Type" = None ->
      create url size type
      = ([], Failed (RuntimeError ("Content-Type header not returned by "
                                   +:+ "server when sending HEAD request to "
                                   +:+ url)))).
Proof.
  intros Hhead Hstatus. unfold create_from_server_response.
  rewrite Hhead, Hstatus. split.
  - intros -> ->. reflexivity.
  - intros -> Hsize ->. rewrite andb_false_r. cbn [negb].
    destruct (size_truthy size); [reflexivity|].
    destruct Hsize as [?|[v ->]]; [discriminate|reflexivity].
Qed.

(** X18.  With neither size nor type given, a successful request whose
    Content-Length is the decimal text of an int [n] of 0 or more and whose
    Content-Type is a non-empty text gives, for a non-empty URL that parses
    with the scheme http or https, the media with that URL, the size [n]
    and the type in lower case without surrounding whitespace; and no
    warning is issued when the extension of the URL is in the table, [n]
    is not 0 and the type is one of the table's. *)
Theorem server_fills_size_and_type (url : string) (r : response) (n : Z)
    (t : string) :
  url <> "" ->
  scheme (urlparse url) ∈ ["http"; "https"] ->
  head url = Built r -> raise_for_status r = Built tt ->
  headers r "Content-Length" = Some (PyStr.of_Z n) -> (0 <= n)%Z ->
  headers r "Content-Type" = Some t -> t <> "" ->
  exists w,
    create url None None
    = (w, Built {| _url := Some url; _size := Some n;
                   _type := Some (PyStr.lower (PyStr.strip t)) |})
    /\ (is_Some (file_types !! PyStr.lower (Media.extension urlparse url)) ->
        (0 < n)%Z ->
        PyStr.lower (PyStr.strip t) ∈ (map_to_list file_types).*2 ->
        w = []).
Proof.
  intros Hurl Hs Hhead Hstatus Hlen Hn Htype Ht.
  unfold create_from_server_response.
  rewrite Hhead, Hstatus. cbn [size_truthy PyStr.truthy andb negb].
  rewrite Hlen, Htype. unfold Media.__init__.
  destruct (url_setter_stores urlparse
              {| _url := None; _size := None; _type := None |} url Hurl)
    as (w1 & -> & Hw1 & _).
  cbn [mbind W_bind].
  rewrite size_setter_decimal_text, size_setter_int by assumption.
  assert (Htrue : PyStr.truthy (Some t) = true)
    by (destruct t; [contradiction|reflexivity]).
  rewrite Htrue. cbn [mbind W_bind mret W_ret].
  unfold type_setter. destruct t as [|c t]; [contradiction|].
  destruct (bool_decide (_ ∈ (map_to_list file_types).*2)) eqn:Hin.
  - eexists. split; [reflexivity|]. intros Hext Hpos _.
    rewrite Hw1 by assumption.
    rewrite bool_decide_eq_false_2 by lia. reflexivity.
  - eexists. split; [reflexivity|]. intros _ _ Hmem.
    apply bool_decide_eq_false in Hin. contradiction.
Qed.

End ServerResponse.

(** ** Closed instances for the further properties of media *)

Lemma size_setter_invariant_witness :
  exists n, (0 <= n)%Z
            /\ Media.set_size (Some 2000000%Z)
                 {| Media._url := None; Media._size := None; Media._type := None |}
               = Media.set_size (Some n)
                   {| Media._url := None; Media._size := None; Media._type := None |}
            /\ [] = (if bool_decide (n = 0%Z) then [Media.size_zero_warning] else []).
Proof.
  exact (size_setter_invariant
           {| Media._url := None; Media._size := None; Media._type := None |}
           _ (Some (PyStr "2 MB")) [] eq_refl).
Defined.

Lemma type_setter_blank_witness :
  Media.type_setter
    {| Media._url := None; Media._size := None; Media._type := None |}
    (Some "  ")
  = ([Media.NotSupportedByItunesWarning "Media type %s is not supported by iTunes."],
     Ok {| Media._url := None; Media._size := None; Media._type := Some "" |}).
Proof.
  exact (proj1 (type_setter_blank
                  {| Media._url := None; Media._size := None; Media._type := None |}
                  " " " " eq_refl)).
Defined.

Lemma media_attributes_set_witness :
  Media._url {| Media._url := Some "ftp://x.com/a.mp3"; Media._size := Some 5%Z;
                Media._type := Some "audio/mpeg" |}
  = Some "ftp://x.com/a.mp3".
Proof.
  exact (proj1 (proj2 (media_attributes_set Standin.urlparse
           "ftp://x.com/a.mp3" (Some (PyStr "5 b")) None
           [Media.NotSupportedByItunesWarning
              ("URL scheme ftp is not supported by iTunes. Make sure "
               +:+ "you use absolute URLs and HTTP or HTTPS.")]
           _ eq_refl))).
Defined.

Lemma media_supported_url_witness :
  Media.__init__ Standin.urlparse "https://x.com/talk/ep1.m4a" (Some (PyInt 0)) None
  = ([Media.size_zero_warning],
     Ok {| Media._url := Some "https://x.com/talk/ep1.m4a";
           Media._size := Some 0%Z; Media._type := Some "audio/x-m4a" |}).
Proof.
  refine (media_supported_url Standin.urlparse "https://x.com/talk/ep1.m4a"
            "audio/x-m4a" _ _ eq_refl).
  - discriminate.
  - apply list_elem_of_further, list_elem_of_here.
Defined.

Lemma server_missing_header_witness :
  MediaServer.create_from_server_response Standin.urlparse unit
    (fun _ => MediaServer.Built tt) (fun _ => MediaServer.Built tt)
    (fun _ _ => None) "http://x.com/a.mp3" None None
  = ([], MediaServer.Failed
           (MediaServer.RuntimeError
              ("Content-Length not returned by server "
               +:+ "when sending HEAD request to " +:+ "http://x.com/a.mp3"))).
Proof.
  exact (proj1 (server_missing_header Standin.urlparse unit
                  (fun _ => MediaServer.Built tt) (fun _ => MediaServer.Built tt)
                  (fun _ _ => None) "http://x.com/a.mp3" None None tt
                  eq_refl eq_refl)
           eq_refl eq_refl).
Defined.

Lemma server_fills_size_and_type_witness :
  MediaServer.create_from_server_response Standin.urlparse unit
    (fun _ => MediaServer.Built tt) (fun _ => MediaServer.Built tt)
    (fun _ => MediaServer.fixed_headers "252345991" "Audio/MPEG")
    "http://x.com/ep1.mp3" None None
  = ([], MediaServer.Built
           {| Media._url := Some "http://x.com/ep1.mp3";
              Media._size := Some 252345991%Z;
              Media._type := Some "audio/mpeg" |}).
Proof.
  destruct (server_fills_size_and_type Standin.urlparse unit
              (fun _ => MediaServer.Built tt) (fun _ => MediaServer.Built tt)
              (fun _ => MediaServer.fixed_headers "252345991" "Audio/MPEG")
              "http://x.com/ep1.mp3" tt 252345991 "Audio/MPEG"
              ltac:(discriminate) ltac:(apply list_elem_of_here)
              eq_refl eq_refl eq_refl ltac:(lia) eq_refl ltac:(discriminate))
    as (w & Hc & Hw).
  rewrite Hc, Hw; [reflexivity| | |].
  - eexists. vm_compute. reflexivity.
  - lia.
  - apply list_elem_of_In. vm_compute.
    repeat (first [left; reflexivity | right]).
Defined.
